(** * The Athena (OneFuse) API client of terraform-provider-athena

    A shallow embedding of [athena/api_client.go] and of the IPAM
    reservation resource, followed by the properties of the asynchronous job
    protocol, of reservation creation and of the binding adapter.

    Go values are modelled as follows: [int] is [Z] (64-bit, the range is
    written out where [strconv] checks it), [string] is [string], a nilable
    pointer is an [option], [map[string]interface{}] is a [gmap string Scalar],
    [time.Duration] is a number of nanoseconds in [Z].  A call that touches
    the network threads a [World] (clock and request trace) through a small
    state-and-error monad; a run-time panic is an outcome of its own, and so
    is a loop that runs out of fuel.  The remote service, the URL parser and
    the JSON codec are the environment [Net].  Logging is left out, and so is
    the TLS setting of [getHttpClient], which no result depends on. *)

From Stdlib Require Import ZArith List String Ascii Lia Bool.
From stdpp Require Import base option gmap strings.
Import ListNotations.

Local Open Scope Z_scope.

(** ** Constants of the client *)

Definition ApiVersion : string := "api/v3".
Definition ApiNamespace : string := "onefuse".
Definition WorkspaceResourceType : string := "workspaces".
Definition ModuleEndpointResourceType : string := "endpoints".
Definition ModulePolicyResourceType : string := "modulePolicies".
Definition ModuleDepoloymentResourceType : string := "moduleManagedObjects".
Definition IPAMReservationResourceType : string := "ipamReservations".
Definition IPAMPolicyResourceType : string := "ipamPolicies".
Definition JobStatusResourceType : string := "jobStatus".
Definition RenderTemplateType : string := "templateTester".
Definition JobSuccess : string := "Successful".
Definition JobFailed : string := "Failed".

(** ** The Go library functions the client calls *)

Module strconv.

(** Bounds of the 64-bit [int]. *)
Definition MaxInt : Z := 9223372036854775807.
Definition MinInt : Z := -9223372036854775808.

Definition in_int_range (n : Z) : Prop := MinInt <= n <= MaxInt.

Definition digit_char (d : Z) : ascii := ascii_of_nat (48 + Z.to_nat d).

(** Decimal digits of a non-negative number, most significant first,
    pushed in front of [acc].  [fuel] bounds the number of digits. *)
Fixpoint utoa (fuel : nat) (n : Z) (acc : string) : string :=
  match fuel with
  | O => acc
  | S fuel' =>
      let acc' := String (digit_char (n mod 10)) acc in
      if n <? 10 then acc' else utoa fuel' (n / 10) acc'
  end.

(** [strconv.Itoa]; twenty digits cover every 64-bit magnitude. *)
Definition Itoa (n : Z) : string :=
  if n <? 0 then String "-" (utoa 20 (- n) EmptyString)
  else utoa 20 n EmptyString.

Definition digit_val (c : ascii) : option Z :=
  let k := Z.of_nat (nat_of_ascii c) in
  if (48 <=? k) && (k <=? 57) then Some (k - 48) else None.

(** Left-to-right accumulation of decimal digits; [None] on a character
    that is not a digit. *)
Fixpoint parse_digits (s : string) (acc : Z) : option Z :=
  match s with
  | EmptyString => Some acc
  | String c rest =>
      match digit_val c with
      | Some d => parse_digits rest (acc * 10 + d)
      | None => None
      end
  end.

Definition dquote : string := String (ascii_of_nat 34) EmptyString.

Definition syntax_error (s : string) : string :=
  "strconv.Atoi: parsing " +:+ dquote +:+ s +:+ dquote +:+ ": invalid syntax".
Definition range_error (s : string) : string :=
  "strconv.Atoi: parsing " +:+ dquote +:+ s +:+ dquote +:+ ": value out of range".

(** [strconv.Atoi]: the value and the error, as Go returns them.  A syntax
    error comes with the value 0, a range error with the nearest bound.  The
    messages quote [s] as it is. *)
Definition Atoi (s : string) : Z * option string :=
  let '(neg, body) :=
    match s with
    | String c rest =>
        if Ascii.eqb c "+" then (false, rest)
        else if Ascii.eqb c "-" then (true, rest)
        else (false, s)
    | EmptyString => (false, s)
    end in
  match body with
  | EmptyString => (0, Some (syntax_error s))
  | _ =>
      match parse_digits body 0 with
      | None => (0, Some (syntax_error s))
      | Some m =>
          if neg then
            if m <=? - MinInt then (- m, None)
            else (MinInt, Some (range_error s))
          else
            if m <=? MaxInt then (m, None)
            else (MaxInt, Some (range_error s))
      end
  end.

End strconv.

Module strings.

(** Splitting on a one-character separator: [strings.Split(s, "/")] is
    [Split s "/"].  The result always has at least one element. *)
Fixpoint split_on (sep : ascii) (s : string) (cur : string) : list string :=
  match s with
  | EmptyString => [cur]
  | String c rest =>
      if Ascii.eqb c sep then cur :: split_on sep rest EmptyString
      else split_on sep rest (cur +:+ String c EmptyString)
  end.

Definition Split (s : string) (sep : ascii) : list string :=
  split_on sep s EmptyString.

Fixpoint Join (l : list string) (sep : string) : string :=
  match l with
  | [] => EmptyString
  | [x] => x
  | x :: rest => x +:+ sep +:+ Join rest sep
  end.

(** [strings.Contains] *)
Fixpoint Contains (s substr : string) : bool :=
  if String.prefix substr s then true
  else
    match s with
    | EmptyString => false
    | String _ rest => Contains rest substr
    end.

End strings.

Module path.

(** One step of [path.Clean] on the elements of a relative path: empty
    and "." elements vanish, ".." removes the element before it unless
    there is none (or it is itself ".."). [done] is kept reversed. *)
Fixpoint clean_elems (elems : list string) (done : list string) : list string :=
  match elems with
  | [] => rev done
  | e :: rest =>
      if String.eqb e "" || String.eqb e "." then clean_elems rest done
      else if String.eqb e ".." then
        match done with
        | [] => clean_elems rest [e]
        | d :: done' =>
            if String.eqb d ".." then clean_elems rest (e :: done)
            else clean_elems rest done'
        end
      else clean_elems rest (e :: done)
  end.

(** [path.Clean], on the elements of the path; a rooted path keeps its
    leading slash and cannot climb above the root. *)
Definition Clean (p : string) : string :=
  match p with
  | EmptyString => "."
  | String "/" _ =>
      let elems := List.filter (fun e => negb (String.eqb e ".."))
                     (clean_elems (strings.Split p "/") []) in
      "/" +:+ strings.Join elems "/"
  | _ =>
      match clean_elems (strings.Split p "/") [] with
      | [] => "."
      | elems => strings.Join elems "/"
      end
  end.

(** [path.Join]: empty elements are ignored, the rest is joined with
    slashes and cleaned; no element at all gives the empty string. *)
Definition Join (elems : list string) : string :=
  match List.filter (fun e => negb (String.eqb e "")) elems with
  | [] => ""
  | nonempty => Clean (strings.Join nonempty "/")
  end.

End path.

(** ** Configuration and URLs *)

Record Config := NewConfig {
  scheme : string;
  address : string;
  port : string;
  user : string;
  password : string;
  verifySSL : bool
}.

Definition collectionURL (config : Config) (resourceType : string) : string :=
  let baseURL := scheme config +:+ "://" +:+ address config +:+ ":" +:+ port config in
  let endpoint := path.Join [ApiVersion; ApiNamespace; resourceType] in
  baseURL +:+ "/" +:+ endpoint +:+ "/".

Definition urlFromHref (config : Config) (href : string) : string :=
  scheme config +:+ "://" +:+ address config +:+ ":" +:+ port config +:+ href.

Definition itemURL (config : Config) (resourceType : string) (id : Z) : string :=
  let idString := strconv.Itoa id in
  let baseURL := collectionURL config resourceType in
  baseURL +:+ idString +:+ "/".

(** ** Data model *)

(** A value held in an [interface{}] slot of a map or list. *)
Inductive Scalar :=
| SNil
| SString (s : string)
| SInt (n : Z)
| SBool (b : bool).

Module LinkRef.
Record t := mk { Href : string; Title : string }.
Definition zero : t := mk "" "".
End LinkRef.

Module Workspace.
Record links := mkLinks { Self : LinkRef.t }.
Record t := mk { Links : option links; ID : Z; Name : string }.
End Workspace.

Module WorkspacesListResponse.
(** [Embedded.Workspaces] *)
Record t := mk { Workspaces : list Workspace.t }.
End WorkspacesListResponse.

Module IPAMReservation.
Record links := mkLinks {
  Self : LinkRef.t;
  Workspace : LinkRef.t;
  Policy : LinkRef.t;
  JobMetadata : LinkRef.t
}.
Record t := mk {
  Links : option links;
  ID : Z;
  Hostname : string;
  PolicyID : Z;
  Policy_ : string;            (* the field [Policy] *)
  WorkspaceURL : string;
  IPaddress : string;
  Gateway : string;
  PrimaryDNS : string;
  SecondaryDNS : string;
  Network : string;
  Subnet : string;
  DNSSuffix : string;
  Netmask : string;
  NicLabel : string;
  TemplateProperties : gmap string Scalar
}.
(** [IPAMReservation{}] *)
Definition zero : t :=
  mk None 0 "" 0 "" "" "" "" "" "" "" "" "" "" "" ∅.
Definition set_WorkspaceURL (v : string) (r : t) : t :=
  mk (Links r) (ID r) (Hostname r) (PolicyID r) (Policy_ r) v (IPaddress r)
     (Gateway r) (PrimaryDNS r) (SecondaryDNS r) (Network r) (Subnet r)
     (DNSSuffix r) (Netmask r) (NicLabel r) (TemplateProperties r).
Definition set_Policy (v : string) (r : t) : t :=
  mk (Links r) (ID r) (Hostname r) (PolicyID r) v (WorkspaceURL r) (IPaddress r)
     (Gateway r) (PrimaryDNS r) (SecondaryDNS r) (Network r) (Subnet r)
     (DNSSuffix r) (Netmask r) (NicLabel r) (TemplateProperties r).
End IPAMReservation.

Module JobStatus.
Record links := mkLinks {
  Self : LinkRef.t;
  JobMetadata : LinkRef.t;
  ManagedObject : LinkRef.t;
  Policy : LinkRef.t;
  Workspace : LinkRef.t
}.
Record message := mkMessage { Message : string }.
Record errorDetails := mkErrorDetails {
  Code : Z;
  Errors : option (list message)
}.
Record t := mk {
  Links : option links;
  ID : Z;
  JobStateDescription : string;
  JobState : string;
  JobTrackingID : string;
  JobType : string;
  ErrorDetails : option errorDetails
}.
(** [JobStatus{}] *)
Definition zero : t := mk None 0 "" "" "" "" None.
End JobStatus.

(** ** The network *)

(** A JSON document is represented by what [json.Marshal] was given. *)
Inductive Entity :=
| ReservationEntity (r : IPAMReservation.t).

Record Request := mkRequest {
  Method : string;
  URL : string;
  Payload : option Entity;
  Header : list (string * string);
  BasicAuth : option (string * string)
}.

(** What [json.Unmarshal] makes of a response body for a target type. *)
Inductive Decoded (A : Type) :=
| BadJSON (msg : string)
| JSONNull
| JSONValue (a : A).
Arguments BadJSON {A} msg.
Arguments JSONNull {A}.
Arguments JSONValue {A} a.

(** A response body: its text, and its decoding for each type the client
    decodes into.  [asWorkspaces] is the value the target holds after the
    call, whose error the client ignores. *)
Record Body := mkBody {
  text : string;
  asJobStatus : Decoded JobStatus.t;
  asReservation : Decoded IPAMReservation.t;
  asWorkspaces : WorkspacesListResponse.t
}.

(** [ioutil.ReadAll(res.Body)] *)
Inductive ReadResult :=
| ReadError (msg : string)
| ReadOK (b : Body).

Record Response := mkResponse {
  StatusCode : Z;
  ResBody : ReadResult
}.

Inductive RoundTrip :=
| TransportError (msg : string)
| Responded (res : Response).

(** The answer to one request: how long it took (nanoseconds) and what
    came back. *)
Record Reply := mkReply {
  latency : N;
  outcome : RoundTrip
}.

(** The environment of the client: the error [http.NewRequest] has for a
    URL it cannot parse (or none), the text [json.Marshal] produces, and how
    the remote service answers a request given those sent before. *)
Record Net := mkNet {
  parses : string -> option string;
  marshal : Entity -> string;
  respond : list Request -> Request -> Reply
}.

(** The state a call threads: the monotonic clock (nanoseconds) and the
    requests sent so far, oldest first. *)
Record World := mkWorld {
  now : Z;
  trace : list Request
}.

(** ** Outcomes and the monad of the client *)

Definition error := string.

Inductive PanicKind :=
| NilDereference
| IndexOutOfRange (index : Z) (len : Z)
| TypeAssertion (key : string).

Inductive Outcome (A : Type) :=
| Ok (a : A)
| Err (e : error)
| Panic (p : PanicKind)
| OutOfFuel.
Arguments Ok {A} a.
Arguments Err {A} e.
Arguments Panic {A} p.
Arguments OutOfFuel {A}.

(** A computation over a state [S]: it ends with a value, with a Go error,
    with a panic, or it runs out of fuel; the state is threaded in each case. *)
Definition St (S A : Type) : Type := S -> Outcome A * S.

Definition ret {S A} (a : A) : St S A := fun s => (Ok a, s).
Definition fail {S A} (e : error) : St S A := fun s => (Err e, s).
Definition panic {S A} (p : PanicKind) : St S A := fun s => (Panic p, s).
Definition diverge {S A} : St S A := fun s => (OutOfFuel, s).

Definition bind {S A B} (m : St S A) (k : A -> St S B) : St S B :=
  fun s =>
    match m s with
    | (Ok a, s') => k a s'
    | (Err e, s') => (Err e, s')
    | (Panic p, s') => (Panic p, s')
    | (OutOfFuel, s') => (OutOfFuel, s')
    end.

(** [v, err := f()] followed by a test of [err]: the error becomes a value. *)
Definition try {S A} (m : St S A) : St S (error + A) :=
  fun s =>
    match m s with
    | (Ok a, s') => (Ok (inr a), s')
    | (Err e, s') => (Ok (inl e), s')
    | (Panic p, s') => (Panic p, s')
    | (OutOfFuel, s') => (OutOfFuel, s')
    end.

Notation "'let*' x ':=' m 'in' k" := (bind m (fun x => k))
  (at level 10, x name, m at level 100, k at level 200).

(** [return v, err] with a possibly nil [err]. *)
Definition go_return {S A} (v : A) (err : option error) : St S A :=
  match err with
  | None => ret v
  | Some e => fail e
  end.

(** Dereferencing a pointer. *)
Definition deref {S A} (p : option A) : St S A :=
  match p with
  | Some a => ret a
  | None => panic NilDereference
  end.

(** The client's calls run over the [World]. *)
Definition M : Type -> Type := St World.

(** [errors.WithMessage]: nil stays nil. *)
Definition WithMessage (err : option error) (message : string) : option error :=
  match err with
  | None => None
  | Some e => Some (message +:+ ": " +:+ e)
  end.

(** ** time *)

Definition Millisecond : Z := 1000000.

Definition time_Now : M Z := fun w => (Ok (now w), w).
Definition time_Since (t : Z) : M Z := fun w => (Ok (now w - t), w).
(** [time.Sleep] pauses for [d] (nothing for a non-positive [d]). *)
Definition time_Sleep (d : Z) : M unit :=
  fun w => (Ok tt, mkWorld (now w + Z.max 0 d) (trace w)).

(** ** The client *)

Section Client.

Variable net : Net.

(** [http.NewRequest]: fails on a URL that does not parse. *)
Definition http_NewRequest (method url : string) (body : option Entity)
  : error + Request :=
  match parses net url with
  | Some e => inl e
  | None => inr (mkRequest method url body [] None)
  end.

Definition Header_Add (key value : string) (req : Request) : Request :=
  mkRequest (Method req) (URL req) (Payload req)
            (Header req ++ [(key, value)]) (BasicAuth req).

Definition SetBasicAuth (username passwd : string) (req : Request) : Request :=
  mkRequest (Method req) (URL req) (Payload req) (Header req)
            (Some (username, passwd)).

Definition setStandardHeaders (req : Request) : Request :=
  Header_Add "cache-control" "no-cache"
    (Header_Add "Connection" "keep-alive"
      (Header_Add "accept-encoding" "gzip, deflate"
        (Header_Add "Cache-Control" "no-cache"
          (Header_Add "Accept" "*/*"
            (Header_Add "Content-Type" "application/json" req))))).

Definition setHeaders (req : Request) (config : Config) : Request :=
  SetBasicAuth (user config) (password config)
    (Header_Add "SOURCE" "Terraform"
      (Header_Add "Host" (address config +:+ ":" +:+ port config)
        (setStandardHeaders req))).

(** [client.Do(req)] on the client of [getHttpClient]: the request joins
    the trace, the clock advances by the time the round trip took. *)
Definition client_Do (req : Request) : M Response :=
  fun w =>
    let reply := respond net (trace w) req in
    let w' := mkWorld (now w + Z.of_N (latency reply)) (trace w ++ [req]) in
    match outcome reply with
    | TransportError e => (Err e, w')
    | Responded res => (Ok res, w')
    end.

(** [ioutil.ReadAll(req.Body)], done for an error message about [req].  A
    request built without body has a nil [Body], and reading it panics;
    otherwise the text is taken to be the one that was marshalled. *)
Definition ReadAll_request (req : Request) : M string :=
  match Payload req with
  | Some e => ret (marshal net e)
  | None => panic NilDereference
  end.

Definition checkForErrors (res : Response) : option error :=
  if StatusCode res >=? 500 then
    match ResBody res with
    | ReadError e => Some e
    | ReadOK b => Some (text b)
    end
  else if StatusCode res >=? 400 then
    match ResBody res with
    | ReadError e => Some e
    | ReadOK b => Some (text b)
    end
  else None.

Definition readResponse (res : Response) : error + Body :=
  match checkForErrors res with
  | Some e => inl e
  | None =>
      match ResBody res with
      | ReadError e => inl e
      | ReadOK b => inr b
      end
  end.

(** The types [doGet] decodes into. *)
Class Unmarshaler (A : Type) := { decode : Body -> Decoded A }.
#[export] Instance JobStatus_Unmarshaler : Unmarshaler JobStatus.t :=
  {| decode := asJobStatus |}.
#[export] Instance IPAMReservation_Unmarshaler : Unmarshaler IPAMReservation.t :=
  {| decode := asReservation |}.

(** [doGet(config, url, &v)]: the result is the value [v] holds at the
    end.  A JSON null leaves the target as it was. *)
Definition doGet {A} `{Unmarshaler A} (config : Config) (url : string) (v : A)
  : M A :=
  match http_NewRequest "GET" url None with
  | inl err =>
      go_return v (WithMessage (Some err)
        ("athena.apiClient: Failed to create request GET " +:+ url))
  | inr req =>
      let req := setHeaders req config in
      let* r := try (client_Do req) in
      match r with
      | inl err =>
          go_return v (WithMessage (Some err)
            ("athena.apiClient: Failed to do request GET " +:+ url))
      | inr res =>
          match checkForErrors res with
          | Some err =>
              go_return v (WithMessage (Some err)
                ("athena.apiClient: Request failed GET " +:+ url))
          | None =>
              match ResBody res with
              | ReadError err =>
                  go_return v (WithMessage (Some err)
                    ("athena.apiClient: Failed to read response body from GET "
                       +:+ url))
              | ReadOK body =>
                  match decode body with
                  | BadJSON err =>
                      go_return v (WithMessage (Some err)
                        ("athena.apiClient: Failed to unmarshal response "
                           +:+ text body))
                  | JSONNull => ret v
                  | JSONValue a => ret a
                  end
              end
          end
      end
  end.

Definition GetJobStatus (id : Z) (config : Config) : M JobStatus.t :=
  let url := itemURL config JobStatusResourceType id in
  doGet config url JobStatus.zero.

Definition PollingTimeoutMS : Z := 3600000.
Definition PollingIntervalMS : Z := 5000.

Definition timeout_error : error := "Timed out while waiting for job to complete.".

(** The loop of [waitForJob]; one unit of [fuel] per test of the loop
    condition. *)
Fixpoint waitForJob_loop (fuel : nat) (jobID : Z) (config : Config)
    (startTime : Z) (jobStatusDescription : string)
    (jobStatus : option JobStatus.t) : M (option JobStatus.t) :=
  match fuel with
  | O => diverge
  | S fuel' =>
      if negb (String.eqb jobStatusDescription JobSuccess)
         && negb (String.eqb jobStatusDescription JobFailed)
      then
        let* js := GetJobStatus jobID config in
        let* _ := time_Sleep (PollingIntervalMS * Millisecond) in
        let* since := time_Since startTime in
        if since >? PollingTimeoutMS * Millisecond
        then fail timeout_error
        else waitForJob_loop fuel' jobID config startTime
               (JobStatus.JobState js) (Some js)
      else ret jobStatus
  end.

(** Enough for every run: an iteration that does not return adds at
    least the polling interval to the elapsed time. *)
Definition waitForJob_fuel : nat := 722.

Definition waitForJob (jobID : Z) (config : Config) : M (option JobStatus.t) :=
  let* startTime := time_Now in
  waitForJob_loop waitForJob_fuel jobID config startTime "" None.

(** [%v] of a slice of [struct{ Message string }]. *)
Definition format_messages (errs : list JobStatus.message) : string :=
  "[" +:+ strings.Join
            (map (fun m => "{" +:+ JobStatus.Message m +:+ "}") errs) " "
      +:+ "]".

Definition checkForJobErrors (jobStatus : JobStatus.t) : M (option error) :=
  if negb (String.eqb (JobStatus.JobState jobStatus) JobSuccess) then
    let* details := deref (JobStatus.ErrorDetails jobStatus) in
    let* errs := deref (JobStatus.Errors details) in
    ret (Some ("Job " +:+ JobStatus.JobType jobStatus
                 +:+ " (" +:+ strconv.Itoa (JobStatus.ID jobStatus)
                 +:+ ") failed with message " +:+ format_messages errs))
  else ret None.

Definition handleAsyncRequest (req : Request) (config : Config)
    (httpVerb : string) : M JobStatus.t :=
  let* r := try (client_Do req) in
  match r with
  | inl err =>
      let* body := ReadAll_request req in
      go_return JobStatus.zero (WithMessage (Some err)
        ("athena.apiClient: Failed to do request " +:+ httpVerb +:+ " "
           +:+ URL req +:+ " " +:+ body))
  | inr res =>
      match readResponse res with
      | inl err =>
          let* body := ReadAll_request req in
          go_return JobStatus.zero (WithMessage (Some err)
            ("athena.apiClient: Failed to read response body from "
               +:+ httpVerb +:+ " " +:+ URL req +:+ " " +:+ body))
      | inr body =>
          match asJobStatus body with
          | BadJSON err =>
              go_return JobStatus.zero (WithMessage (Some err)
                ("athena.apiClient: Failed to unmarshal response " +:+ text body))
          | decoded =>
              let submitted :=
                match decoded with JSONValue js => Some js | _ => None end in
              let* js0 := deref submitted in
              let* polled := waitForJob (JobStatus.ID js0) config in
              let* js := deref polled in
              let* err := checkForJobErrors js in
              go_return js err
          end
      end
  end.

Definition handleAsyncRequestAndFetchManagdObject {A} `{Unmarshaler A}
    (req : Request) (config : Config) (responseObject : A)
    (httpVerb : string) : M (JobStatus.t * A) :=
  let* jobStatus := handleAsyncRequest req config httpVerb in
  let* links := deref (JobStatus.Links jobStatus) in
  let url := urlFromHref config
               (LinkRef.Href (JobStatus.ManagedObject links)) in
  let* responseObject := doGet config url responseObject in
  ret (jobStatus, responseObject).

(** [json.Marshal] does not fail on the entities of this model, so the
    branch for its error does not appear. *)
Definition buildPostRequest (config : Config) (resourceType : string)
    (requestEntity : Entity) : error + Request :=
  let url := collectionURL config resourceType in
  let requestBody := marshal net requestEntity in
  match http_NewRequest "POST" url (Some requestEntity) with
  | inl err =>
      inl ("athena.apiClient: Unable to create request POST " +:+ url
             +:+ " " +:+ requestBody +:+ ": " +:+ err)
  | inr req => inr (setHeaders req config)
  end.

Definition findDefaultWorkspaceID (config : Config) : M string :=
  let filter := "filter=name.exact:Default" in
  let url := collectionURL config WorkspaceResourceType +:+ "?" +:+ filter in
  match http_NewRequest "GET" url None with
  | inl clientErr =>
      go_return "" (WithMessage (Some clientErr)
        ("athena.findDefaultWorkspaceID: Failed to make request GET " +:+ url))
  | inr req =>
      let req := setHeaders req config in
      let* r := try (client_Do req) in
      match r with
      | inl clientErr =>
          go_return "" (WithMessage (Some clientErr)
            ("athena.findDefaultWorkspaceID: Failed to do request GET " +:+ url))
      | inr res =>
          (* from here on [clientErr] is nil *)
          let clientErr : option error := None in
          match readResponse res with
          | inl err => fail err
          | inr body =>
              let data := asWorkspaces body in
              let workspaces := WorkspacesListResponse.Workspaces data in
              match workspaces with
              | [] =>
                  go_return "" (WithMessage clientErr
                    "athena.findDefaultWorkspaceID: Failed to find default workspace!")
              | first :: _ => ret (strconv.Itoa (Workspace.ID first))
              end
          end
      end
  end.

Definition findWorkspaceURLOrDefault (config : Config) (workspaceURL : string)
  : M string :=
  if String.eqb workspaceURL "" then
    let* r := try (findDefaultWorkspaceID config) in
    match r with
    | inl err =>
        go_return "" (WithMessage (Some err)
          "athena.apiClient: Failed to find default workspace")
    | inr workspaceID =>
        match strconv.Atoi workspaceID with
        | (_, Some err) =>
            go_return "" (WithMessage (Some err)
              ("athena.apiClient: Failed to convert Workspace ID '"
                 +:+ workspaceID +:+ "' to integer"))
        | (workspaceIDInt, None) =>
            ret (itemURL config WorkspaceResourceType workspaceIDInt)
        end
    end
  else ret workspaceURL.

Definition policy_required_error : error :=
  "athena.apiClient: IPAM Record Create requires a PolicyID or Policy URL".

(** The result of a call that was handed a pointer to a record: the
    outcome, the record as the caller finds it afterwards, the world. *)
Definition with_record {A} (r : IPAMReservation.t) (m : M A)
  : World -> Outcome A * IPAMReservation.t * World :=
  fun w => let '(o, w') := m w in (o, r, w').

Definition CreateIPAMReservation (config : Config)
    (newIPAMRecord : IPAMReservation.t)
  : World -> Outcome IPAMReservation.t * IPAMReservation.t * World :=
  fun w =>
    match try (findWorkspaceURLOrDefault config
                 (IPAMReservation.WorkspaceURL newIPAMRecord)) w with
    | (Ok (inl err), w1) =>
        (Err err, IPAMReservation.set_WorkspaceURL "" newIPAMRecord, w1)
    | (Ok (inr workspaceURL), w1) =>
        let newIPAMRecord :=
          IPAMReservation.set_WorkspaceURL workspaceURL newIPAMRecord in
        if String.eqb (IPAMReservation.Policy_ newIPAMRecord) "" then
          if negb (IPAMReservation.PolicyID newIPAMRecord =? 0) then
            let newIPAMRecord :=
              IPAMReservation.set_Policy
                (itemURL config WorkspaceResourceType
                   (IPAMReservation.PolicyID newIPAMRecord))
                newIPAMRecord in
            with_record newIPAMRecord
              (match buildPostRequest config IPAMReservationResourceType
                       (ReservationEntity newIPAMRecord) with
               | inl err => fail err
               | inr req =>
                   let* r := handleAsyncRequestAndFetchManagdObject
                               req config IPAMReservation.zero "POST" in
                   ret (snd r)
               end) w1
          else (Err policy_required_error, newIPAMRecord, w1)
        else (Err policy_required_error, newIPAMRecord, w1)
    | (Err e, w1) => (Err e, newIPAMRecord, w1)
    | (Panic p, w1) => (Panic p, newIPAMRecord, w1)
    | (OutOfFuel, w1) => (OutOfFuel, newIPAMRecord, w1)
    end.

Definition GetIPAMReservation (config : Config) (id : Z) : M IPAMReservation.t :=
  let url := itemURL config IPAMReservationResourceType id in
  doGet config url IPAMReservation.zero.

Definition not_implemented_error : error := "athena.apiClient: Not implemented yet".

Definition UpdateIPAMReservation (config : Config) (id : Z)
    (updatedIPAMReservation : IPAMReservation.t) : M IPAMReservation.t :=
  fail not_implemented_error.

Definition DeleteIPAMReservation (config : Config) (id : Z) : M unit :=
  let url := itemURL config IPAMReservationResourceType id in
  match http_NewRequest "DELETE" url None with
  | inl err =>
      go_return tt (WithMessage (Some err)
        ("athena.apiClient: Failed to create request DELETE " +:+ url))
  | inr req =>
      let req := setHeaders req config in
      let* _ := handleAsyncRequest req config "DELETE" in
      ret tt
  end.

End Client.

(** ** The resource data of the host *)

Inductive Value :=
| VString (s : string)
| VInt (n : Z)
| VBool (b : bool)
| VList (l : list Scalar)
| VMap (m : gmap string Scalar).

Inductive ValueType := TypeString | TypeInt | TypeBool | TypeList | TypeMap.

#[export] Instance Scalar_eq_dec : EqDecision Scalar.
Proof. solve_decision. Defined.
#[export] Instance Value_eq_dec : EqDecision Value.
Proof. solve_decision. Defined.

Module schema.

(** The [Schema] of [resourceIPAMReservation]. *)
Definition reservation_schema : list (string * ValueType) :=
  [ ("hostname", TypeString);
    ("computed_hostname", TypeString);
    ("policy_id", TypeInt);
    ("workspace_url", TypeString);
    ("ip_address", TypeString);
    ("netmask", TypeString);
    ("gateway", TypeString);
    ("network", TypeString);
    ("subnet", TypeString);
    ("primary_dns", TypeString);
    ("secondary_dns", TypeString);
    ("nic_label", TypeString);
    ("dns_suffix", TypeString);
    ("dns_search_suffix", TypeList);
    ("template_properties", TypeMap) ].

Fixpoint lookup_type (l : list (string * ValueType)) (key : string)
  : option ValueType :=
  match l with
  | [] => None
  | (k, ty) :: rest => if String.eqb k key then Some ty else lookup_type rest key
  end.

Definition type_of (key : string) : option ValueType :=
  lookup_type reservation_schema key.

Definition zero_value (ty : ValueType) : Value :=
  match ty with
  | TypeString => VString ""
  | TypeInt => VInt 0
  | TypeBool => VBool false
  | TypeList => VList []
  | TypeMap => VMap ∅
  end.

Definition has_type (v : Value) (ty : ValueType) : bool :=
  match v, ty with
  | VString _, TypeString | VInt _, TypeInt | VBool _, TypeBool
  | VList _, TypeList | VMap _, TypeMap => true
  | _, _ => false
  end.

(** [schema.ResourceData]: the attributes of the prior state, the
    attributes as configured and set since, and the resource id. *)
Record ResourceData := mkResourceData {
  prior : gmap string Value;
  attrs : gmap string Value;
  id : string
}.

Definition read (m : gmap string Value) (key : string) : option Value :=
  match type_of key with
  | None => None
  | Some ty =>
      match m !! key with
      | Some v => Some v
      | None => Some (zero_value ty)
      end
  end.

(** [d.Get(key)]: the zero value of the attribute's type when it is not
    set, nil for a key outside the schema. *)
Definition Get (d : ResourceData) (key : string) : option Value :=
  read (attrs d) key.

(** [d.HasChange(key)] *)
Definition HasChange (d : ResourceData) (key : string) : bool :=
  negb (bool_decide (read (prior d) key = read (attrs d) key)).

(** [d.Set(key, value)]; the name [Set] is taken. *)
Definition Set_ (d : ResourceData) (key : string) (value : Value)
  : error + ResourceData :=
  match type_of key with
  | None => inl ("Invalid address to set: " +:+ key)
  | Some ty =>
      if has_type value ty
      then inr (mkResourceData (prior d) (<[key := value]> (attrs d)) (id d))
      else inl (key +:+ ": invalid type for attribute")
  end.

End schema.

(** ** The binding adapter *)

Import schema.

(** [if err := d.Set(key, value); err != nil { return errors.WithMessage(err, msg) }] *)
Definition set_or_return (key : string) (value : Value) (message : string)
  : St ResourceData unit :=
  fun d =>
    match Set_ d key value with
    | inl err => go_return tt (WithMessage (Some err) message) d
    | inr d' => (Ok tt, d')
    end.

(** Indexing a slice. *)
Definition index {S A} (l : list A) (i : Z) : St S A :=
  if (i <? 0) || (Z.of_nat (length l) <=? i)
  then panic (IndexOutOfRange i (Z.of_nat (length l)))
  else
    match nth_error l (Z.to_nat i) with
    | Some a => ret a
    | None => panic (IndexOutOfRange i (Z.of_nat (length l)))
    end.

Definition bindIPAMReservationResource (ipamRecord : IPAMReservation.t)
  : St ResourceData unit :=
  let* _ := set_or_return "computed_hostname"
              (VString (IPAMReservation.Hostname ipamRecord))
              ("Cannot set name: " +:+ IPAMReservation.Hostname ipamRecord) in
  let* links := deref (IPAMReservation.Links ipamRecord) in
  let* _ := set_or_return "workspace_url"
              (VString (LinkRef.Href (IPAMReservation.Workspace links)))
              ("Cannot set workspace: "
                 +:+ LinkRef.Href (IPAMReservation.Workspace links)) in
  let* _ := set_or_return "ip_address"
              (VString (IPAMReservation.IPaddress ipamRecord))
              ("Cannot set IPAddress: " +:+ IPAMReservation.IPaddress ipamRecord) in
  let* _ := set_or_return "netmask"
              (VString (IPAMReservation.Netmask ipamRecord))
              ("Cannot set Netmask " +:+ IPAMReservation.Netmask ipamRecord) in
  let* _ := set_or_return "primary_dns"
              (VString (IPAMReservation.PrimaryDNS ipamRecord))
              ("Cannot set Primmary DNS: " +:+ IPAMReservation.PrimaryDNS ipamRecord) in
  let* _ := set_or_return "secondary_dns"
              (VString (IPAMReservation.SecondaryDNS ipamRecord))
              ("Cannot set Secondary DNS: "
                 +:+ IPAMReservation.SecondaryDNS ipamRecord) in
  let* _ := set_or_return "gateway"
              (VString (IPAMReservation.Gateway ipamRecord))
              ("Cannot set Gateway: " +:+ IPAMReservation.Gateway ipamRecord) in
  let* _ := set_or_return "network"
              (VString (IPAMReservation.Network ipamRecord))
              ("Cannot set Network: " +:+ IPAMReservation.Network ipamRecord) in
  let* _ := set_or_return "subnet"
              (VString (IPAMReservation.Subnet ipamRecord))
              ("Cannot set Subnet: " +:+ IPAMReservation.Subnet ipamRecord) in
  let* _ := set_or_return "nic_label"
              (VString (IPAMReservation.NicLabel ipamRecord))
              ("Cannot set NicLabel: " +:+ IPAMReservation.NicLabel ipamRecord) in
  let* _ := set_or_return "dns_suffix"
              (VString (IPAMReservation.DNSSuffix ipamRecord))
              ("Cannot set DNSSuffix: " +:+ IPAMReservation.DNSSuffix ipamRecord) in
  let ipamPolicyURLSplit :=
    strings.Split (LinkRef.Href (IPAMReservation.Policy links)) "/" in
  let* ipamPolicyID :=
    index ipamPolicyURLSplit (Z.of_nat (length ipamPolicyURLSplit) - 2) in
  let '(ipamPolicyIDInt, _) := strconv.Atoi ipamPolicyID in
  set_or_return "policy_id" (VInt ipamPolicyIDInt) "Cannot set policy".

(** ** The update entry point of the resource *)

(** State of a resource callback: the resource data and the world. *)
Definition Callback : Type -> Type := St (ResourceData * World).

Definition liftD {A} (m : St ResourceData A) : Callback A :=
  fun s => let '(o, d') := m (fst s) in (o, (d', snd s)).
Definition liftW {A} (m : M A) : Callback A :=
  fun s => let '(o, w') := m (snd s) in (o, (fst s, w')).
Definition resource_data : Callback ResourceData :=
  fun s => (Ok (fst s), s).

(** The type assertions on what [d.Get] returns. *)
Definition get_string (d : ResourceData) (key : string) : Callback string :=
  match Get d key with
  | Some (VString s) => ret s
  | _ => panic (TypeAssertion key)
  end.
Definition get_int (d : ResourceData) (key : string) : Callback Z :=
  match Get d key with
  | Some (VInt n) => ret n
  | _ => panic (TypeAssertion key)
  end.
Definition get_list (d : ResourceData) (key : string) : Callback (list Scalar) :=
  match Get d key with
  | Some (VList l) => ret l
  | _ => panic (TypeAssertion key)
  end.
Definition get_map (d : ResourceData) (key : string)
  : Callback (gmap string Scalar) :=
  match Get d key with
  | Some (VMap m) => ret m
  | _ => panic (TypeAssertion key)
  end.

(** [for _, group := range ... { ipam_Suffixes = append(ipam_Suffixes, group.(string)) }] *)
Fixpoint collect_suffixes (groups : list Scalar) (ipam_Suffixes : list string)
  : Callback (list string) :=
  match groups with
  | [] => ret ipam_Suffixes
  | SString s :: rest => collect_suffixes rest (ipam_Suffixes ++ [s])
  | _ :: _ => panic (TypeAssertion "dns_search_suffix")
  end.

(** The change test of [resourceIPAMReservationUpdate]. *)
Definition changed (d : ResourceData) : bool :=
  (HasChange d "hostname" ||
   HasChange d "computed_hostname" ||
   HasChange d "policy_id" ||
   HasChange d "workspace_url") ||
  HasChange d "ip_address" ||
  HasChange d "netmask" ||
  HasChange d "subnet" ||
  HasChange d "network" ||
  HasChange d "gateway" ||
  HasChange d "primary_dns" ||
  HasChange d "secondary_dns" ||
  HasChange d "dns_suffix" ||
  HasChange d "nic_label" ||
  HasChange d "template_properties".

Definition resourceIPAMReservationUpdate (net : Net) (config : Config)
  : Callback unit :=
  let* d := resource_data in
  if negb (changed d) then ret tt
  else
    let* groups := get_list d "dns_search_suffix" in
    let* ipam_Suffixes := collect_suffixes groups [] in
    let* hostname := get_string d "hostname" in
    let* policy_id := get_int d "policy_id" in
    let* workspace_url := get_string d "workspace_url" in
    let* ip_address := get_string d "ip_address" in
    let* netmask := get_string d "netmask" in
    let* subnet := get_string d "subnet" in
    let* gateway := get_string d "gateway" in
    let* network := get_string d "network" in
    let* primary_dns := get_string d "primary_dns" in
    let* secondary_dns := get_string d "secondary_dns" in
    let* dns_suffix := get_string d "dns_suffix" in
    let* nic_label := get_string d "nic_label" in
    let* template_properties := get_map d "template_properties" in
    let desiredIPAMRecord :=
      IPAMReservation.mk None 0 hostname policy_id "" workspace_url ip_address
        gateway primary_dns secondary_dns network subnet dns_suffix netmask
        nic_label template_properties in
    match strconv.Atoi (id d) with
    | (_, Some err) => fail err
    | (intID, None) =>
        let* ipamRecord :=
          liftW (UpdateIPAMReservation config intID desiredIPAMRecord) in
        liftD (bindIPAMReservationResource ipamRecord)
    end.

(** ** Vocabulary of the statements *)

(** The two states that end the polling. *)
Definition is_terminal (state : string) : bool :=
  String.eqb state JobSuccess || String.eqb state JobFailed.

(** The requests the client builds. *)
Definition get_request (config : Config) (url : string) : Request :=
  setHeaders (mkRequest "GET" url None [] None) config.

Definition poll_request (config : Config) (jobID : Z) : Request :=
  get_request config (itemURL config JobStatusResourceType jobID).

Definition workspace_lookup_request (config : Config) : Request :=
  get_request config
    (collectionURL config WorkspaceResourceType +:+ "?" +:+ "filter=name.exact:Default").

Definition post_request (config : Config) (e : Entity) : Request :=
  setHeaders
    (mkRequest "POST" (collectionURL config IPAMReservationResourceType)
       (Some e) [] None)
    config.

(** The GET that resolves the managed object of a finished job. *)
Definition managed_request (config : Config) (links : JobStatus.links) : Request :=
  get_request config
    (urlFromHref config (LinkRef.Href (JobStatus.ManagedObject links))).

(** A request that changes something on the service. *)
Definition is_mutating (req : Request) : bool :=
  negb (String.eqb (Method req) "GET").

(** What [doGet] makes of a reply for a target holding [v]: the value the
    target holds afterwards, or nothing when [doGet] returns an error. *)
Definition got {A} `{Unmarshaler A} (v : A) (reply : Reply) : option A :=
  match outcome reply with
  | TransportError _ => None
  | Responded res =>
      if StatusCode res >=? 400 then None
      else
        match ResBody res with
        | ReadError _ => None
        | ReadOK body =>
            match decode body with
            | BadJSON _ => None
            | JSONNull => Some v
            | JSONValue a => Some a
            end
        end
  end.

(** What a status fetch makes of a reply: the job status [GetJobStatus]
    returns for it, or nothing when it returns an error. *)
Definition fetched (reply : Reply) : option JobStatus.t :=
  got JobStatus.zero reply.

(** What [handleAsyncRequest] makes of the reply to the submission: the
    job status it starts polling for, if there is one. *)
Definition accepted (reply : Reply) : option JobStatus.t :=
  match outcome reply with
  | TransportError _ => None
  | Responded res =>
      if StatusCode res >=? 400 then None
      else
        match ResBody res with
        | ReadError _ => None
        | ReadOK body =>
            match asJobStatus body with
            | JSONValue js => Some js
            | _ => None
            end
        end
  end.

(** What the default-workspace lookup makes of a reply: the list of
    workspaces it reads, or nothing when it returns an error. *)
Definition listed (reply : Reply) : option (list Workspace.t) :=
  match outcome reply with
  | TransportError _ => None
  | Responded res =>
      if StatusCode res >=? 400 then None
      else
        match ResBody res with
        | ReadError _ => None
        | ReadOK body => Some (WorkspacesListResponse.Workspaces (asWorkspaces body))
        end
  end.

(** [w'] is [w] with more requests sent. *)
Definition extends (w w' : World) : Prop :=
  exists sent, trace w' = trace w ++ sent.

(** The record supplies neither a policy id nor a policy URL, or both. *)
Definition policy_ambiguous (r : IPAMReservation.t) : Prop :=
  (IPAMReservation.PolicyID r = 0 /\ IPAMReservation.Policy_ r = "")
  \/ (IPAMReservation.PolicyID r <> 0 /\ IPAMReservation.Policy_ r <> "").

(** Every field but the workspace URL and the policy URL is the same. *)
Definition unchanged_elsewhere (r r' : IPAMReservation.t) : Prop :=
  IPAMReservation.Links r' = IPAMReservation.Links r
  /\ IPAMReservation.ID r' = IPAMReservation.ID r
  /\ IPAMReservation.Hostname r' = IPAMReservation.Hostname r
  /\ IPAMReservation.PolicyID r' = IPAMReservation.PolicyID r
  /\ IPAMReservation.IPaddress r' = IPAMReservation.IPaddress r
  /\ IPAMReservation.Gateway r' = IPAMReservation.Gateway r
  /\ IPAMReservation.PrimaryDNS r' = IPAMReservation.PrimaryDNS r
  /\ IPAMReservation.SecondaryDNS r' = IPAMReservation.SecondaryDNS r
  /\ IPAMReservation.Network r' = IPAMReservation.Network r
  /\ IPAMReservation.Subnet r' = IPAMReservation.Subnet r
  /\ IPAMReservation.DNSSuffix r' = IPAMReservation.DNSSuffix r
  /\ IPAMReservation.Netmask r' = IPAMReservation.Netmask r
  /\ IPAMReservation.NicLabel r' = IPAMReservation.NicLabel r
  /\ IPAMReservation.TemplateProperties r' = IPAMReservation.TemplateProperties r.

(** The error [findWorkspaceURLOrDefault] returns when the lookup finds no
    workspace. *)
Definition empty_lookup_error : error :=
  "athena.apiClient: Failed to convert Workspace ID '' to integer: "
  +:+ strconv.syntax_error "".

(** The creation is refused and nothing was sent. *)
Definition rejected_without_request (net : Net) (config : Config)
    (r : IPAMReservation.t) (w : World) : Prop :=
  let '(o, _, w') := CreateIPAMReservation net config r w in
  (exists e, o = Err e) /\ trace w' = trace w.

Section Polling.

Variables (net : Net) (config : Config) (jobID : Z).

(** The reply to the poll that follows [k] earlier polls sent after the
    requests [hist]. *)
Fixpoint poll_reply (hist : list Request) (k : nat) : Reply :=
  match k with
  | O => respond net hist (poll_request config jobID)
  | S k' => poll_reply (hist ++ [poll_request config jobID]) k'
  end.

(** The clock after [k] polls, each followed by the pause of the loop,
    starting at [t] after the requests [hist]. *)
Fixpoint clock_after (hist : list Request) (t : Z) (k : nat) : Z :=
  match k with
  | O => t
  | S k' =>
      clock_after (hist ++ [poll_request config jobID])
        (t + Z.of_N (latency (respond net hist (poll_request config jobID)))
           + PollingIntervalMS * Millisecond)
        k'
  end.

(** The world after one poll and the pause that follows it. *)
Definition after_poll (w : World) : World :=
  mkWorld (now w
           + Z.of_N (latency (respond net (trace w) (poll_request config jobID)))
           + PollingIntervalMS * Millisecond)
          (trace w ++ [poll_request config jobID]).

End Polling.

(** What follows the polling in [handleAsyncRequest]. *)
Definition after_polling (polled : option JobStatus.t) : M JobStatus.t :=
  let* js := deref polled in
  let* err := checkForJobErrors js in
  go_return js err.

(** [sub] occurs in [s]. *)
Definition Includes (s sub : string) : Prop :=
  exists before after, s = before +:+ sub +:+ after.

(** A string made of decimal digits only. *)
Fixpoint all_digits (s : string) : bool :=
  match s with
  | EmptyString => true
  | String c rest =>
      match strconv.digit_val c with
      | Some _ => all_digits rest
      | None => false
      end
  end.

(** A string in the syntax of a decimal integer: an optional sign and at
    least one digit. *)
Definition is_decimal (s : string) : bool :=
  let body :=
    match s with
    | String c rest =>
        if Ascii.eqb c "+" || Ascii.eqb c "-" then rest else s
    | EmptyString => s
    end in
  match body with
  | EmptyString => false
  | _ => all_digits body
  end.

(** The attributes of the resource, and those the update entry point
    compares. *)
Definition schema_keys : list string := map fst schema.reservation_schema.

Definition tracked_keys : list string :=
  [ "hostname"; "computed_hostname"; "policy_id"; "workspace_url"; "ip_address";
    "netmask"; "subnet"; "network"; "gateway"; "primary_dns"; "secondary_dns";
    "dns_suffix"; "nic_label"; "template_properties" ].

(** A change of [key] makes the update entry point go on to the update
    instead of returning success at once. *)
Definition update_tracks (key : string) : Prop :=
  forall net config d w,
    HasChange d key = true ->
    fst (resourceIPAMReservationUpdate net config (d, w)) <> Ok tt.

(** A computation that leaves the state as it found it. *)
Definition keeps {S A} (m : St S A) : Prop := forall s, snd (m s) = s.

(** ** Sample configuration, bodies and services *)

Definition sample_config : Config := NewConfig "https" "onefuse.example" "443" "admin" "secret" true.

(** A service that answers the [k]-th request it sees with the [k]-th
    reply of a script, and drops the connection afterwards. *)
Definition scripted (script : list Reply) : Net :=
  mkNet (fun _ => None) (fun _ => "{...}")
        (fun hist _ => nth (length hist) script (mkReply 0 (TransportError "EOF"))).

Definition body_of_job (js : JobStatus.t) : Body :=
  mkBody "{job}" (JSONValue js) (BadJSON "unexpected field") (WorkspacesListResponse.mk []).

Definition body_of_reservation (r : IPAMReservation.t) : Body :=
  mkBody "{reservation}" (BadJSON "unexpected field") (JSONValue r)
         (WorkspacesListResponse.mk []).

Definition body_of_workspaces (l : list Workspace.t) : Body :=
  mkBody "{workspaces}" (BadJSON "unexpected field") (BadJSON "unexpected field")
         (WorkspacesListResponse.mk l).

Definition answered (millis : N) (b : Body) : Reply :=
  mkReply (millis * 1000000) (Responded (mkResponse 200 (ReadOK b))).

Definition sample_links : JobStatus.links :=
  JobStatus.mkLinks
    (LinkRef.mk "/api/v3/onefuse/jobStatus/7/" "")
    (LinkRef.mk "/api/v3/onefuse/jobMetadata/7/" "")
    (LinkRef.mk "/api/v3/onefuse/ipamReservations/9/" "")
    (LinkRef.mk "/api/v3/onefuse/modulePolicies/42/" "")
    (LinkRef.mk "/api/v3/onefuse/workspaces/1/" "").

Definition sample_job (state : string) (details : option JobStatus.errorDetails)
  : JobStatus.t :=
  JobStatus.mk (Some sample_links) 7 "" state "" "Provision IPAM" details.

Definition sample_request : IPAMReservation.t :=
  IPAMReservation.mk None 0 "web01" 42 ""
    "https://onefuse.example:443/api/v3/onefuse/workspaces/1/"
    "" "" "" "" "" "" "" "" "" ∅.

Definition sample_created : IPAMReservation.t :=
  IPAMReservation.mk
    (Some (IPAMReservation.mkLinks
             (LinkRef.mk "/api/v3/onefuse/ipamReservations/9/" "")
             (LinkRef.mk "/api/v3/onefuse/workspaces/1/" "")
             (LinkRef.mk "/api/v3/onefuse/modulePolicies/42/" "")
             (LinkRef.mk "/api/v3/onefuse/jobMetadata/7/" "")))
    9 "web01" 0 "" "" "10.0.0.5" "10.0.0.1" "10.0.0.2" "10.0.0.3" "10.0.0.0"
    "10.0.0.0/24" "example.org" "255.255.255.0" "eth0" ∅.

Definition fresh_world : World := mkWorld 0 [].

(** The service of a creation that takes three polls: the submission is
    accepted, the job is pending twice and then successful, and the managed
    object is served. *)
Definition three_poll_service : Net :=
  scripted
    [ answered 120 (body_of_job (sample_job "Pending" None));
      answered 80 (body_of_job (sample_job "Pending" None));
      answered 80 (body_of_job (sample_job "Pending" None));
      answered 80 (body_of_job (sample_job "Successful" None));
      answered 60 (body_of_reservation sample_created) ].

(** A job found successful by the first poll, whose answer takes 3598
    seconds: it arrives two seconds before the hour is over. *)
Definition late_success_service : Net :=
scripted [ answered 3598000 (body_of_job (sample_job "Successful" None)) ].

(** A job that is pending for 718 polls and successful at the next one;
    every answer takes ten milliseconds. *)
Definition slow_job_service : Net :=
mkNet (fun _ => None) (fun _ => "{...}")
      (fun hist _ =>
         answered 10
           (body_of_job
              (sample_job (if (length hist <? 718)%nat then "Pending" else "Successful")
                          None))).

(** A creation whose job fails: the submission is accepted and the first
    poll finds the job failed, with the given error details. *)
Definition failing_job_service (details : option JobStatus.errorDetails) : Net :=
scripted
  [ answered 120 (body_of_job (sample_job "Pending" None));
    answered 80 (body_of_job (sample_job "Failed" details)) ].

Definition bad_hostname_details : JobStatus.errorDetails :=
JobStatus.mkErrorDetails 400 (Some [JobStatus.mkMessage "bad hostname"]).

Definition default_workspace : Workspace.t :=
  Workspace.mk
    (Some (Workspace.mkLinks (LinkRef.mk "/api/v3/onefuse/workspaces/1/" "")))
    1 "Default".

(** A service that knows the workspace "Default" and answers nothing else. *)
Definition lookup_service : Net :=
  scripted [ answered 50 (body_of_workspaces [default_workspace]) ].

(** A service without any workspace of that name. *)
Definition no_workspace_service : Net :=
  scripted [ answered 50 (body_of_workspaces []) ].

(** A record without workspace URL and without any policy reference. *)
Definition request_without_policy : IPAMReservation.t :=
  IPAMReservation.mk None 0 "web01" 0 "" "" "" "" "" "" "" "" "" "" "" ∅.

(** A record with a policy id and without workspace URL. *)
Definition request_without_workspace : IPAMReservation.t :=
  IPAMReservation.set_WorkspaceURL "" sample_request.

(** A resource whose list of search suffixes was edited and nothing else. *)
Definition suffix_edit : ResourceData :=
  mkResourceData
    (<["hostname" := VString "web01"]>
       (<["policy_id" := VInt 42]>
          (<["dns_search_suffix" := VList [SString "corp.example"]]> ∅)))
    (<["hostname" := VString "web01"]>
       (<["policy_id" := VInt 42]>
          (<["dns_search_suffix" := VList [SString "lab.example"]]> ∅)))
    "9".

(** A resource whose hostname was edited. *)
Definition hostname_edit : ResourceData :=
  mkResourceData
    (<["hostname" := VString "web01"]> (<["policy_id" := VInt 42]> ∅))
    (<["hostname" := VString "web02"]> (<["policy_id" := VInt 42]> ∅))
    "9".

(** A reservation as the service returns it, with the given links. *)
Definition with_links (links : option IPAMReservation.links) : IPAMReservation.t :=
  IPAMReservation.mk links 9 "web01" 0 "" "" "10.0.0.5" "10.0.0.1" "10.0.0.2"
    "10.0.0.3" "10.0.0.0" "10.0.0.0/24" "example.org" "255.255.255.0" "eth0" ∅.

Definition links_with_policy (href : string) : IPAMReservation.links :=
  IPAMReservation.mkLinks
    (LinkRef.mk "/api/v3/onefuse/ipamReservations/9/" "")
    (LinkRef.mk "/api/v3/onefuse/workspaces/1/" "")
    (LinkRef.mk href "")
    (LinkRef.mk "/api/v3/onefuse/jobMetadata/7/" "").

Definition empty_resource : ResourceData := mkResourceData ∅ ∅ "9".

(** ** The remaining operations of the client *)

Module IPAMPolicy.
Record links := mkLinks { Self : LinkRef.t; Workspace : LinkRef.t }.
Record t := mk {
  Links : option links;
  ID : Z;
  Name : string;
  Description : string
}.
End IPAMPolicy.

Module IPAMPolicyResponse.
(** [Embedded.IPAMPolicies] *)
Record t := mk { IPAMPolicies : list IPAMPolicy.t }.
(** [IPAMPolicyResponse{}] *)
Definition zero : t := mk [].
End IPAMPolicyResponse.

Section Lookup.

Variable net : Net.

(** [findEntityByName].  The collection is found by reflection on the
    field names ["Embedded"] and [embeddedStructFieldName]; [collection] is
    that lookup, with no result for a field the response type does not
    have, on which [Len] panics. *)
Definition findEntityByName {C E} `{Unmarshaler C} (config : Config)
    (name resourceType : string) (collectionResponse : C)
    (collection : C -> option (list E)) (additionalFilters : string) : M E :=
  let url := collectionURL config resourceType +:+ "?filter=name:" +:+ name
               +:+ additionalFilters in
  let* collectionResponse := doGet net config url collectionResponse in
  let* collectionField := deref (collection collectionResponse) in
  match collectionField with
  | [] =>
      fail ("athena.apiClient: Could not find " +:+ resourceType +:+ " '"
              +:+ name +:+ "'!")
  | entity :: _ => ret entity
  end.

(** The decoding of a body into an [IPAMPolicyResponse]. *)
Variable asPolicies : Body -> Decoded IPAMPolicyResponse.t.

Definition GetIPAMPolicyByName (config : Config) (name : string)
  : M IPAMPolicy.t :=
  findEntityByName (H := Build_Unmarshaler _ asPolicies) config name
    IPAMPolicyResourceType IPAMPolicyResponse.zero
    (fun r => Some (IPAMPolicyResponse.IPAMPolicies r)) "".

Definition GetIPAMPolicy (id : Z) : M IPAMPolicy.t :=
  fail "athena.apiClient: Not implemented yet".

End Lookup.

(** ** The other entry points of the resource *)

(** [d.SetId(v)] *)
Definition SetId (v : string) : St ResourceData unit :=
  fun d => (Ok tt, mkResourceData (prior d) (attrs d) v).

(** The record the create entry point builds from the resource data, field
    by field in the order of the struct literal. *)
Definition record_of_resource (d : ResourceData) : Callback IPAMReservation.t :=
  let* hostname := get_string d "hostname" in
  let* policy_id := get_int d "policy_id" in
  let* workspace_url := get_string d "workspace_url" in
  let* ip_address := get_string d "ip_address" in
  let* netmask := get_string d "netmask" in
  let* subnet := get_string d "subnet" in
  let* gateway := get_string d "gateway" in
  let* network := get_string d "network" in
  let* primary_dns := get_string d "primary_dns" in
  let* secondary_dns := get_string d "secondary_dns" in
  let* dns_suffix := get_string d "dns_suffix" in
  let* nic_label := get_string d "nic_label" in
  let* template_properties := get_map d "template_properties" in
  ret (IPAMReservation.mk None 0 hostname policy_id "" workspace_url ip_address
         gateway primary_dns secondary_dns network subnet dns_suffix netmask
         nic_label template_properties).

Definition resourceIPAMReservationCreate (net : Net) (config : Config)
  : Callback unit :=
  let* d := resource_data in
  let* groups := get_list d "dns_search_suffix" in
  let* ipam_Suffixes := collect_suffixes groups [] in
  let* newIPAMRecord := record_of_resource d in
  let* ipamRecord :=
    liftW (fun w =>
             let '(o, _, w') := CreateIPAMReservation net config newIPAMRecord w in
             (o, w')) in
  let* _ := liftD (SetId (strconv.Itoa (IPAMReservation.ID ipamRecord))) in
  liftD (bindIPAMReservationResource ipamRecord).

Definition resourceIPAMReservationRead (net : Net) (config : Config)
  : Callback unit :=
  let* d := resource_data in
  match strconv.Atoi (id d) with
  | (_, Some err) => fail err
  | (intID, None) =>
      let* ipamRecord := liftW (GetIPAMReservation net config intID) in
      liftD (bindIPAMReservationResource ipamRecord)
  end.

Definition resourceIPAMReservationDelete (net : Net) (config : Config)
  : Callback unit :=
  let* d := resource_data in
  match strconv.Atoi (id d) with
  | (_, Some err) => fail err
  | (intID, None) => liftW (DeleteIPAMReservation net config intID)
  end.

(** ** Vocabulary of the further statements *)

(** The headers and the credentials [setHeaders] puts on a request. *)
Definition standard_headers (config : Config) : list (string * string) :=
  [ ("Content-Type", "application/json");
    ("Accept", "*/*");
    ("Cache-Control", "no-cache");
    ("accept-encoding", "gzip, deflate");
    ("Connection", "keep-alive");
    ("cache-control", "no-cache");
    ("Host", address config +:+ ":" +:+ port config);
    ("SOURCE", "Terraform") ].

Definition carries_headers (config : Config) (req : Request) : Prop :=
  Header req = standard_headers config
  /\ BasicAuth req = Some (user config, password config).

(** From [w] to [w'] requests were sent, all of them with [P]. *)
Definition sends_only (P : Request -> Prop) (w w' : World) : Prop :=
  exists sent, trace w' = trace w ++ sent /\ Forall P sent.

(** The DELETE of a reservation. *)
Definition delete_request (config : Config) (id : Z) : Request :=
  setHeaders
    (mkRequest "DELETE" (itemURL config IPAMReservationResourceType id) None [] None)
    config.

(** A path element that [path.Clean] keeps as it is. *)
Fixpoint no_slash (s : string) : bool :=
  match s with
  | EmptyString => true
  | String c rest => negb (Ascii.eqb c "/") && no_slash rest
  end.

Definition plain_element (s : string) : bool :=
  no_slash s && negb (String.eqb s "") && negb (String.eqb s ".")
  && negb (String.eqb s "..").

(** The text of the failure of a job, as [checkForJobErrors] prints it. *)
Definition job_failure_text (js : JobStatus.t) (errs : list JobStatus.message)
  : string :=
  "Job " +:+ JobStatus.JobType js +:+ " (" +:+ strconv.Itoa (JobStatus.ID js)
    +:+ ") failed with message " +:+ format_messages errs.

(** The attributes [bindIPAMReservationResource] writes. *)
Definition bound_keys : list string :=
  [ "computed_hostname"; "workspace_url"; "ip_address"; "netmask"; "primary_dns";
    "secondary_dns"; "gateway"; "network"; "subnet"; "nic_label"; "dns_suffix";
    "policy_id" ].

(** Further samples. *)
Definition sample_resource : ResourceData :=
  mkResourceData ∅
    (<["hostname" := VString "web01"]>
       (<["policy_id" := VInt 42]>
          (<["workspace_url" :=
               VString "https://onefuse.example:443/api/v3/onefuse/workspaces/1/"]>
             (<["dns_search_suffix" := VList [SString "corp.example"]]> ∅))))
    "".

Definition refused (status : Z) (message : string) : Reply :=
  mkReply 1000000
    (Responded (mkResponse status
                  (ReadOK (mkBody message (BadJSON "invalid character")
                             (BadJSON "invalid character")
                             (WorkspacesListResponse.mk []))))).

(** A job that never finishes; every answer takes no time. *)
Definition stuck_job_service : Net :=
  mkNet (fun _ => None) (fun _ => "{...}")
        (fun _ _ => answered 0 (body_of_job (sample_job "Pending" None))).

(** A job found pending by a poll whose answer takes the whole hour. *)
Definition slow_answer_service : Net :=
  scripted [ answered 3600000 (body_of_job (sample_job "Pending" None)) ].

(** A job found pending once; the next poll is answered with a server
    error. *)
Definition broken_poll_service : Net :=
  scripted [ answered 80 (body_of_job (sample_job "Pending" None));
             refused 503 "Service Unavailable" ].

(** A service that refuses whatever it is sent first. *)
Definition refusing_service : Net :=
  scripted [ refused 404 "{detail: Not found.}" ].

(** The status of a deletion job, without links block. *)
Definition deletion_job (state : string) : JobStatus.t :=
  JobStatus.mk None 7 "" state "" "Deprovision IPAM" None.

(** A deletion that takes two polls. *)
Definition deletion_service : Net :=
  scripted
    [ answered 120 (body_of_job (deletion_job "Pending"));
      answered 80 (body_of_job (deletion_job "Pending"));
      answered 80 (body_of_job (deletion_job "Successful")) ].

(** A creation whose job succeeds but reports no links block. *)
Definition linkless_success_service : Net :=
  scripted
    [ answered 120 (body_of_job (deletion_job "Pending"));
      answered 80 (body_of_job (deletion_job "Successful")) ].

(** A record that names its policy by URL only. *)
Definition request_with_policy_url : IPAMReservation.t :=
  IPAMReservation.set_Policy
    "https://onefuse.example:443/api/v3/onefuse/modulePolicies/42/"
    (IPAMReservation.mk None 0 "web01" 0 ""
       "https://onefuse.example:443/api/v3/onefuse/workspaces/1/"
       "" "" "" "" "" "" "" "" "" ∅).

(** A service that lists two workspaces, the first of them not named
    "Default". *)
Definition two_workspace_service : Net :=
  scripted
    [ answered 50
        (body_of_workspaces
           [ Workspace.mk None 5 "Staging"; default_workspace ]) ].

(** * Properties *)

(** ** Decimal conversions *)

Section Decimal.
Import strconv.

Lemma digit_val_digit_char d : 0 <= d <= 9 -> digit_val (digit_char d) = Some d.
Proof.
  intros Hd.
  assert (d = 0 \/ d = 1 \/ d = 2 \/ d = 3 \/ d = 4 \/ d = 5 \/ d = 6
          \/ d = 7 \/ d = 8 \/ d = 9) as Hcases by lia.
  repeat (destruct Hcases as [-> | Hcases]; [reflexivity |]).
  subst d; reflexivity.
Qed.

Lemma digit_char_not_sign d :
  0 <= d <= 9 ->
  Ascii.eqb (digit_char d) "+" = false /\ Ascii.eqb (digit_char d) "-" = false.
Proof.
  intros Hd.
  assert (d = 0 \/ d = 1 \/ d = 2 \/ d = 3 \/ d = 4 \/ d = 5 \/ d = 6
          \/ d = 7 \/ d = 8 \/ d = 9) as Hcases by lia.
  repeat (destruct Hcases as [-> | Hcases]; [split; reflexivity |]).
  subst d; split; reflexivity.
Qed.

(** Reading back the digits that [utoa] wrote gives the number. *)
Lemma parse_digits_utoa fuel :
  forall n acc, 0 <= n < 10 ^ Z.of_nat fuel ->
    parse_digits (utoa fuel n acc) 0 = parse_digits acc n.
Proof.
  induction fuel as [| fuel IH]; intros n acc Hn.
  - simpl in *. replace n with 0 by lia. reflexivity.
  - rewrite Nat2Z.inj_succ, Z.pow_succ_r in Hn by lia.
    assert (0 <= n mod 10 <= 9) as Hd by (pose proof (Z.mod_pos_bound n 10); lia).
    cbn [utoa]. destruct (n <? 10) eqn:Hlt.
    + apply Z.ltb_lt in Hlt.
      cbn [parse_digits]. rewrite digit_val_digit_char by exact Hd.
      rewrite Z.mod_small by lia. reflexivity.
    + apply Z.ltb_ge in Hlt.
      rewrite IH.
      * cbn [parse_digits]. rewrite digit_val_digit_char by exact Hd.
        f_equal. pose proof (Z.div_mod n 10). lia.
      * split; [apply Z.div_pos; lia | apply Z.div_lt_upper_bound; lia].
Qed.

(** [utoa] starts with a digit. *)
Lemma utoa_head fuel :
  forall n acc, 0 <= n ->
    exists d rest, 0 <= d <= 9 /\ utoa (S fuel) n acc = String (digit_char d) rest.
Proof.
  induction fuel as [| fuel IH]; intros n acc Hn.
  - exists (n mod 10), acc. split; [pose proof (Z.mod_pos_bound n 10); lia |].
    cbn [utoa]. destruct (n <? 10); reflexivity.
  - remember (S fuel) as f eqn:Hf. cbn [utoa].
    destruct (n <? 10) eqn:Hlt.
    + exists (n mod 10), acc. split; [pose proof (Z.mod_pos_bound n 10); lia | reflexivity].
    + subst f. apply IH. apply Z.div_pos; lia.
Qed.

(** [Atoi] after [Itoa] returns the number, with no error. *)
Lemma Atoi_Itoa n : in_int_range n -> Atoi (Itoa n) = (n, None).
Proof.
  unfold in_int_range, MinInt, MaxInt. intros Hn.
  unfold Itoa. destruct (n <? 0) eqn:Hneg.
  - apply Z.ltb_lt in Hneg.
    destruct (utoa_head 19 (- n) EmptyString) as (d & rest & Hd & Hhead); [lia |].
    pose proof (parse_digits_utoa 20 (- n) EmptyString) as Hparse.
    unfold Atoi. cbn [Ascii.eqb Bool.eqb]. cbv iota beta.
    rewrite Hhead in *. rewrite Hparse by (simpl; lia).
    cbn [parse_digits]. unfold MinInt.
    destruct (- n <=? - -9223372036854775808) eqn:Hle.
    + f_equal. lia.
    + apply Z.leb_gt in Hle. lia.
  - apply Z.ltb_ge in Hneg.
    destruct (utoa_head 19 n EmptyString) as (d & rest & Hd & Hhead); [lia |].
    pose proof (parse_digits_utoa 20 n EmptyString) as Hparse.
    destruct (digit_char_not_sign d Hd) as [Hplus Hminus].
    unfold Atoi. rewrite Hhead in *. rewrite Hplus, Hminus.
    rewrite Hparse by (simpl; lia).
    cbn [parse_digits]. unfold MaxInt.
    destruct (n <=? 9223372036854775807) eqn:Hle.
    + reflexivity.
    + apply Z.leb_gt in Hle. lia.
Qed.

End Decimal.

(** ** Strings *)

Lemma append_assoc (a b c : string) : (a +:+ b) +:+ c = a +:+ (b +:+ c).
Proof.
  induction a as [| ch a IH]; [reflexivity |].
  change (String ch ((a +:+ b) +:+ c) = String ch (a +:+ (b +:+ c))).
  rewrite IH. reflexivity.
Qed.

Lemma append_nil_r (a : string) : a +:+ "" = a.
Proof.
  induction a as [| ch a IH]; [reflexivity |].
  change (String ch (a +:+ "") = String ch a).
  rewrite IH. reflexivity.
Qed.

Lemma Includes_refl s : Includes s s.
Proof. exists "", "". cbn. symmetry. apply append_nil_r. Qed.

Lemma Includes_trans s mid sub : Includes s mid -> Includes mid sub -> Includes s sub.
Proof.
  intros (b1 & a1 & ->) (b2 & a2 & ->). exists (b1 +:+ b2), (a2 +:+ a1).
  rewrite !append_assoc. reflexivity.
Qed.

Lemma Includes_append_l p s sub : Includes s sub -> Includes (p +:+ s) sub.
Proof.
  intros (before & after & ->). exists (p +:+ before), after.
  symmetry. apply append_assoc.
Qed.

Lemma Includes_append_r s q sub : Includes s sub -> Includes (s +:+ q) sub.
Proof.
  intros (before & after & ->). exists before, (after +:+ q).
  rewrite !append_assoc. reflexivity.
Qed.

Lemma Includes_Join (l : list string) sep x :
  In x l -> Includes (strings.Join l sep) x.
Proof.
  induction l as [| y l IH]; intros Hin; [destruct Hin |].
  destruct Hin as [-> | Hin].
  - destruct l as [| z l]; cbn [strings.Join].
    + apply Includes_refl.
    + apply Includes_append_r, Includes_refl.
  - destruct l as [| z l]; [destruct Hin |].
    change (strings.Join (y :: z :: l) sep)
      with (y +:+ sep +:+ strings.Join (z :: l) sep).
    apply Includes_append_l, Includes_append_l, IH, Hin.
Qed.

(** ** The monad *)

Lemma bind_Ok {S A B} (m : St S A) (k : A -> St S B) s a s' :
  m s = (Ok a, s') -> bind m k s = k a s'.
Proof. intros H. unfold bind. rewrite H. reflexivity. Qed.

Lemma bind_Err {S A B} (m : St S A) (k : A -> St S B) s e s' :
  m s = (Err e, s') -> bind m k s = (Err e, s').
Proof. intros H. unfold bind. rewrite H. reflexivity. Qed.

Lemma bind_Panic {S A B} (m : St S A) (k : A -> St S B) s p s' :
  m s = (Panic p, s') -> bind m k s = (Panic p, s').
Proof. intros H. unfold bind. rewrite H. reflexivity. Qed.

(** ** Fetches *)

Section Fetch.

Variables (net : Net) (config : Config).

Lemma checkForErrors_below_400 res :
  (StatusCode res >=? 400) = false -> checkForErrors res = None.
Proof.
  intros H400. unfold checkForErrors. rewrite H400.
  assert ((StatusCode res >=? 500) = false) as ->; [| reflexivity].
  rewrite Z.geb_leb in *. apply Z.leb_gt. apply Z.leb_gt in H400. lia.
Qed.

Lemma checkForErrors_from_400 res :
  (StatusCode res >=? 400) = true -> exists e, checkForErrors res = Some e.
Proof.
  intros H400. unfold checkForErrors. rewrite H400.
  destruct (StatusCode res >=? 500); destruct (ResBody res); eauto.
Qed.

(** A GET sends one request, whatever comes back; it sends none only
    when the URL does not parse. *)
Lemma doGet_sends {A} `{Unmarshaler A} url (v : A) w :
  parses net url = None ->
  exists o,
    doGet net config url v w =
      (o, mkWorld (now w + Z.of_N (latency (respond net (trace w)
                                              (get_request config url))))
                  (trace w ++ [get_request config url]))
    /\ o <> OutOfFuel
    /\ match got v (respond net (trace w) (get_request config url)) with
       | Some a => o = Ok a
       | None => exists e, o = Err e
       end.
Proof.
  intros Hparse.
  unfold doGet, http_NewRequest. rewrite Hparse.
  unfold bind, try, client_Do, got.
  fold (get_request config url).
  destruct (respond net (trace w) (get_request config url)) as [lat out].
  cbn [latency outcome].
  destruct out as [msg | res].
  - eexists; split; [reflexivity |]. split; [discriminate | eauto].
  - destruct (StatusCode res >=? 400) eqn:H400.
    + destruct (checkForErrors_from_400 res H400) as [e ->].
      eexists; split; [reflexivity |]. split; [discriminate | eauto].
    + rewrite (checkForErrors_below_400 res H400).
      destruct (ResBody res) as [msg | body].
      * eexists; split; [reflexivity |]. split; [discriminate | eauto].
      * destruct (decode body);
          (eexists; split; [reflexivity |]; split; [discriminate | eauto]).
Qed.

Lemma GetJobStatus_sends jobID w :
  parses net (itemURL config JobStatusResourceType jobID) = None ->
  exists o,
    GetJobStatus net jobID config w =
      (o, mkWorld (now w + Z.of_N (latency (respond net (trace w)
                                              (poll_request config jobID))))
                  (trace w ++ [poll_request config jobID]))
    /\ o <> OutOfFuel
    /\ match fetched (respond net (trace w) (poll_request config jobID)) with
       | Some js => o = Ok js
       | None => exists e, o = Err e
       end.
Proof. intros Hparse. apply (doGet_sends _ _ _ Hparse). Qed.

End Fetch.

(** ** The poll loop *)

Section Loop.

Variables (net : Net) (config : Config) (jobID : Z).

Hypothesis url_parses :
  parses net (itemURL config JobStatusResourceType jobID) = None.

Let poll := poll_request config jobID.
Let budget := PollingTimeoutMS * Millisecond.
Let pause := PollingIntervalMS * Millisecond.

Lemma loop_condition desc :
  negb (String.eqb desc JobSuccess) && negb (String.eqb desc JobFailed)
  = negb (is_terminal desc).
Proof. unfold is_terminal. rewrite negb_orb. reflexivity. Qed.

(** On a terminal description the loop returns what it holds. *)
Lemma loop_exit fuel start desc held w :
  is_terminal desc = true ->
  waitForJob_loop net (S fuel) jobID config start desc held w = (Ok held, w).
Proof.
  intros Hterm. cbn [waitForJob_loop]. rewrite loop_condition, Hterm.
  reflexivity.
Qed.

(** One iteration on a successful fetch: pause, then the budget test,
    and only then the next test of the loop condition. *)
Lemma loop_step fuel start desc held w js :
  is_terminal desc = false ->
  fetched (respond net (trace w) poll) = Some js ->
  waitForJob_loop net (S fuel) jobID config start desc held w =
    if now (after_poll net config jobID w) - start >? budget
    then (Err timeout_error, after_poll net config jobID w)
    else waitForJob_loop net fuel jobID config start
           (JobStatus.JobState js) (Some js) (after_poll net config jobID w).
Proof.
  intros Hterm Hfetch.
  cbn [waitForJob_loop]. rewrite loop_condition, Hterm. cbn [negb].
  destruct (GetJobStatus_sends net config jobID w url_parses)
    as (o & Hrun & _ & Hout).
  fold poll in Hrun, Hout. rewrite Hfetch in Hout. subst o.
  rewrite (bind_Ok _ _ _ _ _ Hrun).
  unfold bind, time_Sleep, time_Since. cbn [now trace].
  fold pause budget. rewrite Z.max_r by (unfold pause, PollingIntervalMS, Millisecond; lia).
  unfold after_poll. cbn [now]. fold poll pause.
  destruct (_ >? budget); reflexivity.
Qed.

(** One iteration on a failed fetch: the error of the fetch is returned. *)
Lemma loop_fetch_error fuel start desc held w :
  is_terminal desc = false ->
  fetched (respond net (trace w) poll) = None ->
  exists e,
    waitForJob_loop net (S fuel) jobID config start desc held w =
      (Err e, mkWorld (now w + Z.of_N (latency (respond net (trace w) poll)))
                      (trace w ++ [poll])).
Proof.
  intros Hterm Hfetch.
  cbn [waitForJob_loop]. rewrite loop_condition, Hterm. cbn [negb].
  destruct (GetJobStatus_sends net config jobID w url_parses)
    as (o & Hrun & _ & Hout).
  fold poll in Hrun, Hout. rewrite Hfetch in Hout. destruct Hout as [e ->].
  exists e. apply bind_Err. exact Hrun.
Qed.

Lemma clock_after_S hist t k :
  clock_after net config jobID hist t (S k) =
    clock_after net config jobID (hist ++ [poll])
      (t + Z.of_N (latency (respond net hist poll)) + pause) k.
Proof. reflexivity. Qed.

Lemma clock_after_grows k :
  forall hist t, t + Z.of_nat k * pause <= clock_after net config jobID hist t k.
Proof.
  induction k as [| k IH]; intros hist t.
  - simpl. lia.
  - cbn [clock_after]. fold poll pause.
    specialize (IH (hist ++ [poll])
                   (t + Z.of_N (latency (respond net hist poll)) + pause)).
    lia.
Qed.

(** [n] polls that find the job unfinished, then one that finds it
    finished, all within the budget: the loop sends exactly these [n + 1]
    requests and returns the last status. *)
Lemma loop_polls n :
  forall fuel start desc held w final,
    is_terminal desc = false ->
    (n + 2 <= fuel)%nat ->
    (forall k, (k < n)%nat ->
       exists js, fetched (poll_reply net config jobID (trace w) k) = Some js
                  /\ is_terminal (JobStatus.JobState js) = false) ->
    fetched (poll_reply net config jobID (trace w) n) = Some final ->
    is_terminal (JobStatus.JobState final) = true ->
    clock_after net config jobID (trace w) (now w) (S n) - start <= budget ->
    waitForJob_loop net fuel jobID config start desc held w =
      (Ok (Some final),
       mkWorld (clock_after net config jobID (trace w) (now w) (S n))
               (trace w ++ repeat poll (S n))).
Proof.
  induction n as [| n IH];
    intros fuel start desc held w final Hdesc Hfuel Hbefore Hlast Hterm Hclock.
  - destruct fuel as [| [| fuel]]; try lia.
    cbn [poll_reply] in Hlast. fold poll in Hlast.
    rewrite (loop_step _ _ _ _ _ _ Hdesc Hlast).
    cbn [clock_after] in Hclock |- *. fold poll pause in Hclock |- *.
    unfold after_poll at 1. cbn [now]. fold poll pause.
    destruct (_ >? budget) eqn:Hover; [apply Z.gtb_lt in Hover; lia |].
    rewrite loop_exit by exact Hterm. reflexivity.
  - destruct fuel as [| fuel]; try lia.
    destruct (Hbefore O ltac:(lia)) as (js & Hfetch & Hjs).
    cbn [poll_reply] in Hfetch. fold poll in Hfetch.
    rewrite (loop_step _ _ _ _ _ _ Hdesc Hfetch).
    rewrite clock_after_S in Hclock.
    pose proof (clock_after_grows (S n) (trace w ++ [poll])
                  (now w + Z.of_N (latency (respond net (trace w) poll)) + pause))
      as Hgrow.
    assert (0 <= Z.of_nat (S n) * pause) as Hpos
      by (unfold pause, PollingIntervalMS, Millisecond; lia).
    unfold after_poll at 1. cbn [now]. fold poll pause.
    destruct (_ >? budget) eqn:Hover; [apply Z.gtb_lt in Hover; lia |].
    rewrite (IH fuel start _ _ (after_poll net config jobID w) final Hjs); unfold after_poll; cbn [now trace]; fold poll pause.
    + rewrite (clock_after_S (trace w)). cbn [repeat].
      rewrite <- app_assoc. reflexivity.
    + lia.
    + intros k Hk. apply (Hbefore (S k)). lia.
    + exact Hlast.
    + exact Hterm.
    + exact Hclock.
Qed.

End Loop.

(** ** The poll loop ends, and only adds requests *)

Section Termination.

Variables (net : Net) (config : Config) (jobID : Z).

Let budget := PollingTimeoutMS * Millisecond.
Let pause := PollingIntervalMS * Millisecond.

(** A status fetch returns or fails; the clock does not go back and the
    trace is only extended. *)
Lemma GetJobStatus_returns w :
  exists o w',
    GetJobStatus net jobID config w = (o, w')
    /\ o <> OutOfFuel
    /\ now w <= now w'
    /\ exists sent, trace w' = trace w ++ sent.
Proof.
  destruct (parses net (itemURL config JobStatusResourceType jobID)) as [e |] eqn:Hparse.
  - unfold GetJobStatus, doGet, http_NewRequest. rewrite Hparse.
    do 2 eexists. split; [reflexivity |].
    split; [discriminate |]. split; [lia |]. exists []. symmetry. apply app_nil_r.
  - destruct (GetJobStatus_sends net config jobID w Hparse) as (o & Hrun & Hfuel & _).
    do 2 eexists. split; [exact Hrun |]. split; [exact Hfuel |].
    cbn [now trace]. split; [lia | eauto].
Qed.

Lemma loop_returns fuel :
  forall start desc held w,
    now w - start <= budget ->
    (Z.of_nat fuel - 1) * pause + (now w - start) > budget ->
    fst (waitForJob_loop net fuel jobID config start desc held w) <> OutOfFuel.
Proof.
  assert (0 < pause) as Hpause by (unfold pause, PollingIntervalMS, Millisecond; lia).
  induction fuel as [| fuel IH]; intros start desc held w Hin Hfuel.
  - exfalso. cbn in Hfuel. lia.
  - cbn [waitForJob_loop].
    destruct (negb (String.eqb desc JobSuccess) && negb (String.eqb desc JobFailed));
      [| discriminate].
    destruct (GetJobStatus_returns w) as (o & w1 & Hrun & Ho & Hnow & _).
    unfold bind at 1. rewrite Hrun.
    destruct o as [js | e | p |]; try discriminate; [| congruence].
    unfold bind, time_Sleep, time_Since. cbn [now trace].
    fold pause budget. rewrite Z.max_r by lia.
    destruct (_ >? budget) eqn:Hover; [discriminate |].
    apply IH; cbn [now].
    + rewrite Z.gtb_ltb in Hover. apply Z.ltb_ge in Hover. exact Hover.
    + rewrite Nat2Z.inj_succ in Hfuel. nia.
Qed.

(** [waitForJob] always comes back: with a status, an error or the
    timeout. *)
Lemma waitForJob_returns w :
  fst (waitForJob net jobID config w) <> OutOfFuel.
Proof.
  unfold waitForJob, bind, time_Now.
  apply loop_returns.
  - cbn [now]. subst budget. unfold PollingTimeoutMS, Millisecond. lia.
  - cbn [now]. subst budget pause. replace (Z.of_nat waitForJob_fuel) with 722 by reflexivity.
    unfold PollingTimeoutMS, PollingIntervalMS, Millisecond. lia.
Qed.

Lemma loop_extends_trace fuel :
  forall start desc held w,
    exists sent,
      trace (snd (waitForJob_loop net fuel jobID config start desc held w))
      = trace w ++ sent.
Proof.
  induction fuel as [| fuel IH]; intros start desc held w.
  - exists []. cbn. symmetry. apply app_nil_r.
  - cbn [waitForJob_loop].
    destruct (negb (String.eqb desc JobSuccess) && negb (String.eqb desc JobFailed)).
    + destruct (GetJobStatus_returns w) as (o & w1 & Hrun & _ & _ & sent & Hsent).
      unfold bind at 1. rewrite Hrun.
      destruct o as [js | e | p |]; cbn [snd]; eauto.
      unfold bind, time_Sleep, time_Since. cbn [now trace].
      destruct (_ >? _).
      * cbn [snd trace]. eauto.
      * match goal with
        | |- context [waitForJob_loop net fuel jobID config start ?d ?h ?w'] =>
            destruct (IH start d h w') as (more & Hmore)
        end.
        rewrite Hmore. cbn [trace]. rewrite Hsent, <- app_assoc. eauto.
    + exists []. cbn. symmetry. apply app_nil_r.
Qed.

(** With the description still empty the loop body runs: the first thing
    the loop does is to fetch the status. *)
Lemma loop_fetches_first fuel start held w :
  parses net (itemURL config JobStatusResourceType jobID) = None ->
  exists sent,
    trace (snd (waitForJob_loop net (S fuel) jobID config start "" held w))
    = trace w ++ poll_request config jobID :: sent.
Proof.
  intros Hparse.
  cbn [waitForJob_loop].
  replace (negb (String.eqb "" JobSuccess) && negb (String.eqb "" JobFailed))
    with true by reflexivity.
  destruct (GetJobStatus_sends net config jobID w Hparse) as (o & Hrun & _ & _).
  unfold bind at 1. rewrite Hrun.
  destruct o as [js | e | p |]; cbn [snd trace]; try (exists []; reflexivity).
  unfold bind, time_Sleep, time_Since. cbn [now trace].
  destruct (_ >? _).
  - exists []. reflexivity.
  - match goal with
    | |- context [waitForJob_loop net fuel jobID config ?s ?d ?h ?w'] =>
        destruct (loop_extends_trace fuel s d h w') as (more & Hmore)
    end.
    rewrite Hmore. cbn [trace]. rewrite <- app_assoc. eauto.
Qed.

Lemma waitForJob_fetches_first w :
  parses net (itemURL config JobStatusResourceType jobID) = None ->
  exists sent,
    trace (snd (waitForJob net jobID config w))
    = trace w ++ poll_request config jobID :: sent.
Proof.
  intros Hparse. unfold waitForJob, bind, time_Now.
  change waitForJob_fuel with (S 721).
  apply loop_fetches_first. exact Hparse.
Qed.

End Termination.

(** ** The engine around the loop *)

Lemma bind_snd_pure {S A B} (m : St S A) (k : A -> St S B) s :
  (forall a s', snd (k a s') = s') -> snd (bind m k s) = snd (m s).
Proof.
  intros Hk. unfold bind. destruct (m s) as [[a | e | p |] s']; cbn [snd]; auto.
Qed.

Section Engine.

Variables (net : Net) (config : Config).

Let budget := PollingTimeoutMS * Millisecond.

(** The statement of [loop_polls] for [waitForJob], whose fuel is enough
    for any run that stays within the budget. *)
Lemma waitForJob_polls jobID n w final :
  parses net (itemURL config JobStatusResourceType jobID) = None ->
  (forall k, (k < n)%nat ->
     exists js, fetched (poll_reply net config jobID (trace w) k) = Some js
                /\ is_terminal (JobStatus.JobState js) = false) ->
  fetched (poll_reply net config jobID (trace w) n) = Some final ->
  is_terminal (JobStatus.JobState final) = true ->
  clock_after net config jobID (trace w) (now w) (S n) - now w <= budget ->
  waitForJob net jobID config w =
    (Ok (Some final),
     mkWorld (clock_after net config jobID (trace w) (now w) (S n))
             (trace w ++ repeat (poll_request config jobID) (S n))).
Proof.
  intros Hparse Hbefore Hlast Hterm Hclock.
  unfold waitForJob, bind, time_Now.
  apply loop_polls; auto.
  pose proof (clock_after_grows net config jobID (S n) (trace w) (now w)) as Hgrow.
  cbv zeta in Hgrow.
  subst budget. unfold waitForJob_fuel.
  unfold PollingTimeoutMS, PollingIntervalMS, Millisecond in *. lia.
Qed.

Lemma checkForJobErrors_world js w : snd (checkForJobErrors js w) = w.
Proof.
  unfold checkForJobErrors.
  destruct (negb (String.eqb (JobStatus.JobState js) JobSuccess)); [| reflexivity].
  destruct (JobStatus.ErrorDetails js) as [[code [errs |]] |]; reflexivity.
Qed.

Lemma checkForJobErrors_Successful js w :
  JobStatus.JobState js = JobSuccess -> checkForJobErrors js w = (Ok None, w).
Proof. intros Hs. unfold checkForJobErrors. rewrite Hs. reflexivity. Qed.

Lemma after_polling_world polled w : snd (after_polling polled w) = w.
Proof.
  unfold after_polling. destruct polled as [js |]; [| reflexivity].
  unfold bind at 1, deref, ret.
  pose proof (checkForJobErrors_world js w) as Hw.
  unfold bind. destruct (checkForJobErrors js w) as [[[e |] | e | p |] w'];
    cbn [snd] in *; subst; reflexivity.
Qed.

Lemma after_polling_Successful js w :
  JobStatus.JobState js = JobSuccess -> after_polling (Some js) w = (Ok js, w).
Proof.
  intros Hs. unfold after_polling.
  rewrite (bind_Ok _ _ w js w) by reflexivity.
  rewrite (bind_Ok _ _ w None w) by (apply checkForJobErrors_Successful; exact Hs).
  reflexivity.
Qed.

(** Once the submission is answered with a job status, the engine polls
    for the id of that status. *)
Lemma handleAsyncRequest_accepted req httpVerb w js0 :
  accepted (respond net (trace w) req) = Some js0 ->
  handleAsyncRequest net req config httpVerb w =
    bind (waitForJob net (JobStatus.ID js0) config) after_polling
         (mkWorld (now w + Z.of_N (latency (respond net (trace w) req)))
                  (trace w ++ [req])).
Proof.
  unfold accepted. intros Hacc.
  unfold handleAsyncRequest. unfold bind at 1, try, client_Do.
  destruct (respond net (trace w) req) as [lat [msg | res]];
    cbn [outcome latency] in *; [discriminate |].
  destruct (StatusCode res >=? 400) eqn:H400; [discriminate |].
  unfold readResponse. rewrite (checkForErrors_below_400 res H400).
  destruct (ResBody res) as [msg | body]; [discriminate |].
  destruct (asJobStatus body) as [msg | | js]; try discriminate.
  injection Hacc as ->. reflexivity.
Qed.

End Engine.

(** ** Calls only add requests *)

Lemma extends_refl w : extends w w.
Proof. exists []. symmetry. apply app_nil_r. Qed.

Lemma extends_trans w1 w2 w3 : extends w1 w2 -> extends w2 w3 -> extends w1 w3.
Proof.
  intros (s1 & H1) (s2 & H2). exists (s1 ++ s2). rewrite H2, H1, app_assoc. reflexivity.
Qed.

Lemma extends_sent w t req : extends w (mkWorld t (trace w ++ [req])).
Proof. exists [req]. reflexivity. Qed.

Section Traces.

Variables (net : Net) (config : Config).

Lemma doGet_extends {A} `{Unmarshaler A} url (v : A) w :
  extends w (snd (doGet net config url v w))
  /\ fst (doGet net config url v w) <> OutOfFuel.
Proof.
  destruct (parses net url) as [e |] eqn:Hparse.
  - unfold doGet, http_NewRequest. rewrite Hparse. cbn.
    split; [apply extends_refl | discriminate].
  - destruct (doGet_sends net config url v w Hparse) as (o & Hrun & Ho & _).
    rewrite Hrun. cbn [fst snd]. split; [apply extends_sent | exact Ho].
Qed.

Lemma waitForJob_extends jobID w :
  extends w (snd (waitForJob net jobID config w)).
Proof.
  unfold waitForJob, bind, time_Now.
  apply (loop_extends_trace net config jobID).
Qed.

(** The engine sends the request it was given first. *)
Lemma handleAsyncRequest_sends_first req httpVerb w :
  exists sent,
    trace (snd (handleAsyncRequest net req config httpVerb w))
    = trace w ++ req :: sent.
Proof.
  unfold handleAsyncRequest. unfold bind at 1, try, client_Do.
  set (w1 := mkWorld (now w + Z.of_N (latency (respond net (trace w) req)))
                     (trace w ++ [req])).
  destruct (outcome (respond net (trace w) req)) as [msg | res];
    [unfold ReadAll_request; destruct (Payload req); exists []; reflexivity |].
  destruct (readResponse res) as [err | body];
    [unfold ReadAll_request; destruct (Payload req); exists []; reflexivity |].
  destruct (asJobStatus body) as [msg | | js0]; try (exists []; reflexivity).
  cbn [deref]. rewrite (bind_Ok _ _ w1 js0 w1) by reflexivity.
  fold after_polling. rewrite bind_snd_pure by apply after_polling_world.
  destruct (waitForJob_extends (JobStatus.ID js0) w1) as (sent & Hsent).
  exists sent. rewrite Hsent. unfold w1. cbn [trace].
  rewrite <- app_assoc. reflexivity.
Qed.

Lemma fetch_managed_sends_first {A} `{Unmarshaler A} req (v : A) httpVerb w :
  exists sent,
    trace (snd (handleAsyncRequestAndFetchManagdObject net req config v httpVerb w))
    = trace w ++ req :: sent.
Proof.
  destruct (handleAsyncRequest_sends_first req httpVerb w) as (sent & Hsent).
  unfold handleAsyncRequestAndFetchManagdObject. unfold bind at 1.
  destruct (handleAsyncRequest net req config httpVerb w) as [[js | e | p |] w1];
    cbn [snd] in Hsent; cbn [snd]; eauto.
  destruct (JobStatus.Links js) as [links |]; [| cbn; eauto].
  rewrite (bind_Ok _ _ w1 links w1) by reflexivity. cbv zeta.
  match goal with
  | |- context [doGet net config ?u v] =>
      destruct (doGet_extends u v w1) as [(more & Hmore) _];
      unfold bind, ret;
      destruct (doGet net config u v w1) as [[a | e | p |] w2]
  end; cbn [snd] in *; rewrite Hmore, Hsent, <- app_assoc; cbn [app]; eauto.
Qed.

End Traces.

(** ** The number of status fetches *)

(** C2.  The poll loop fetches the status once per iteration until the
    first terminal status: (1) after an accepted submission the engine sends
    at least one status fetch, whatever state the submission reported, also
    a terminal one; (2) when [n] fetches find the job unfinished and the next
    finds it finished, within the budget, exactly these [n + 1] fetches are
    sent and the last status is returned; (3) for the states "Pending",
    "Pending", "Successful" the engine sends the submission, exactly three
    status fetches and then the GET of the managed-object link, and returns
    the last status with the entity that GET decoded. *)
Theorem poll_loop_fetch_count :
  (forall net config req httpVerb w js0,
     accepted (respond net (trace w) req) = Some js0 ->
     parses net (itemURL config JobStatusResourceType (JobStatus.ID js0)) = None ->
     exists sent,
       trace (snd (handleAsyncRequest net req config httpVerb w))
       = trace w ++ req :: poll_request config (JobStatus.ID js0) :: sent)
  /\
  (forall net config jobID n w final,
     parses net (itemURL config JobStatusResourceType jobID) = None ->
     (forall k, (k < n)%nat ->
        exists js, fetched (poll_reply net config jobID (trace w) k) = Some js
                   /\ is_terminal (JobStatus.JobState js) = false) ->
     fetched (poll_reply net config jobID (trace w) n) = Some final ->
     is_terminal (JobStatus.JobState final) = true ->
     clock_after net config jobID (trace w) (now w) (S n) - now w
       <= PollingTimeoutMS * Millisecond ->
     waitForJob net jobID config w =
       (Ok (Some final),
        mkWorld (clock_after net config jobID (trace w) (now w) (S n))
                (trace w ++ repeat (poll_request config jobID) (S n))))
  /\
  (forall net config req w js0 p1 p2 done links (entity : IPAMReservation.t),
     let jobID := JobStatus.ID js0 in
     let poll := poll_request config jobID in
     let submitted := trace w ++ [req] in
     let t := now w + Z.of_N (latency (respond net (trace w) req)) in
     accepted (respond net (trace w) req) = Some js0 ->
     parses net (itemURL config JobStatusResourceType jobID) = None ->
     fetched (poll_reply net config jobID submitted 0) = Some p1 ->
     JobStatus.JobState p1 = "Pending" ->
     fetched (poll_reply net config jobID submitted 1) = Some p2 ->
     JobStatus.JobState p2 = "Pending" ->
     fetched (poll_reply net config jobID submitted 2) = Some done ->
     JobStatus.JobState done = "Successful" ->
     clock_after net config jobID submitted t 3 - t
       <= PollingTimeoutMS * Millisecond ->
     JobStatus.Links done = Some links ->
     parses net (urlFromHref config
                   (LinkRef.Href (JobStatus.ManagedObject links))) = None ->
     got IPAMReservation.zero
         (respond net (submitted ++ [poll; poll; poll])
                  (managed_request config links)) = Some entity ->
     exists t',
       handleAsyncRequestAndFetchManagdObject net req config
         IPAMReservation.zero "POST" w
       = (Ok (done, entity),
          mkWorld t' (trace w ++ [req; poll; poll; poll;
                                  managed_request config links]))).
Proof.
  split; [| split].
  - intros net config req httpVerb w js0 Hacc Hparse.
    rewrite (handleAsyncRequest_accepted _ _ _ _ _ _ Hacc).
    rewrite bind_snd_pure by apply after_polling_world.
    destruct (waitForJob_fetches_first net config (JobStatus.ID js0)
                (mkWorld (now w + Z.of_N (latency (respond net (trace w) req)))
                         (trace w ++ [req])) Hparse) as (sent & Hsent).
    exists sent. rewrite Hsent. cbn [trace]. rewrite <- app_assoc. reflexivity.
  - intros. apply waitForJob_polls; assumption.
  - intros net config req w js0 p1 p2 done links entity jobID poll submitted t
           Hacc Hparse H1 Hp1 H2 Hp2 H3 Hdone Hclock Hlinks Hparse' Hgot.
    assert (waitForJob net jobID config (mkWorld t submitted)
            = (Ok (Some done),
               mkWorld (clock_after net config jobID submitted t 3)
                       (submitted ++ repeat poll 3))) as Hwait.
    { apply (waitForJob_polls net config jobID 2 (mkWorld t submitted) done Hparse).
      - intros [| [| k]] Hk; [exists p1 | exists p2 | lia]; cbn [trace];
          (split; [assumption |]); [rewrite Hp1 | rewrite Hp2]; reflexivity.
      - exact H3.
      - rewrite Hdone. reflexivity.
      - exact Hclock. }
    assert (handleAsyncRequest net req config "POST" w
            = (Ok done,
               mkWorld (clock_after net config jobID submitted t 3)
                       (submitted ++ repeat poll 3))) as Hasync.
    { rewrite (handleAsyncRequest_accepted _ _ _ _ _ _ Hacc).
      fold jobID t submitted.
      rewrite (bind_Ok _ _ _ _ _ Hwait).
      apply after_polling_Successful. exact Hdone. }
    unfold handleAsyncRequestAndFetchManagdObject.
    rewrite (bind_Ok _ _ _ _ _ Hasync).
    rewrite Hlinks. rewrite (bind_Ok _ _ _ links _) by reflexivity.
    destruct (doGet_sends net config _ IPAMReservation.zero
                (mkWorld (clock_after net config jobID submitted t 3)
                         (submitted ++ repeat poll 3)) Hparse')
      as (o & Hrun & _ & Hout).
    fold (managed_request config links) in Hrun, Hout.
    cbn [trace repeat] in Hrun, Hout. rewrite Hgot in Hout. subst o.
    rewrite (bind_Ok _ _ _ _ _ Hrun).
    eexists. unfold ret. f_equal. f_equal. unfold submitted.
    rewrite <- !app_assoc. reflexivity.
Qed.

Lemma poll_loop_fetch_count_witness :
  exists t',
    handleAsyncRequestAndFetchManagdObject three_poll_service
      (post_request sample_config (ReservationEntity sample_request))
      sample_config IPAMReservation.zero "POST" fresh_world
    = (Ok (sample_job "Successful" None, sample_created),
       mkWorld t'
         [ post_request sample_config (ReservationEntity sample_request);
           poll_request sample_config 7;
           poll_request sample_config 7;
           poll_request sample_config 7;
           managed_request sample_config sample_links ]).
Proof.
  destruct poll_loop_fetch_count as (_ & _ & Hthree).
  apply (Hthree three_poll_service sample_config
           (post_request sample_config (ReservationEntity sample_request))
           fresh_world
           (sample_job "Pending" None) (sample_job "Pending" None)
           (sample_job "Pending" None) (sample_job "Successful" None)
           sample_links sample_created);
    try reflexivity.
  apply Z.leb_le. vm_compute. reflexivity.
Defined.

(** ** The timeout of the poll loop *)

Section Timeout.

Variables (net : Net) (config : Config) (jobID : Z).

Hypothesis url_parses :
  parses net (itemURL config JobStatusResourceType jobID) = None.

(** The budget is tested after the pause and before the state of the
    fetched status is looked at: a status that is fetched, terminal or not,
    is dropped for the timeout error when the pause ends past the budget. *)
Lemma waitForJob_late_status w js :
  fetched (respond net (trace w) (poll_request config jobID)) = Some js ->
  now (after_poll net config jobID w) - now w > PollingTimeoutMS * Millisecond ->
  waitForJob net jobID config w = (Err timeout_error, after_poll net config jobID w).
Proof.
  intros Hfetch Hlate.
  unfold waitForJob, bind, time_Now. change waitForJob_fuel with (S 721).
  rewrite (loop_step net config jobID url_parses _ _ _ _ _ js) by (reflexivity || exact Hfetch).
  destruct (_ >? _) eqn:Hover; [reflexivity |].
  rewrite Z.gtb_ltb in Hover. apply Z.ltb_ge in Hover. lia.
Qed.

(** [n] polls that find the job unfinished within the budget, and one more
    poll whose pause ends past the budget: the loop returns the timeout
    error after these [n + 1] fetches, whatever the last one found. *)
Lemma loop_times_out n :
  forall fuel start desc held w,
    is_terminal desc = false ->
    (n + 1 <= fuel)%nat ->
    (forall k, (k <= n)%nat ->
       exists js, fetched (poll_reply net config jobID (trace w) k) = Some js
                  /\ ((k < n)%nat -> is_terminal (JobStatus.JobState js) = false)) ->
    clock_after net config jobID (trace w) (now w) n - start
      <= PollingTimeoutMS * Millisecond ->
    clock_after net config jobID (trace w) (now w) (S n) - start
      > PollingTimeoutMS * Millisecond ->
    waitForJob_loop net fuel jobID config start desc held w =
      (Err timeout_error,
       mkWorld (clock_after net config jobID (trace w) (now w) (S n))
               (trace w ++ repeat (poll_request config jobID) (S n))).
Proof.
  induction n as [| n IH]; intros fuel start desc held w Hdesc Hfuel Hpolls Hin Hout.
  - destruct fuel as [| fuel]; [lia |].
    destruct (Hpolls O ltac:(lia)) as (js & Hfetch & _).
    cbn [poll_reply] in Hfetch.
    rewrite (loop_step net config jobID url_parses _ _ _ _ _ js Hdesc Hfetch).
    cbn [clock_after] in Hout |- *. unfold after_poll. cbn [now].
    destruct (_ >? _) eqn:Hover; [reflexivity |].
    rewrite Z.gtb_ltb in Hover. apply Z.ltb_ge in Hover. lia.
  - destruct fuel as [| fuel]; [lia |].
    destruct (Hpolls O ltac:(lia)) as (js & Hfetch & Hjs).
    cbn [poll_reply] in Hfetch.
    rewrite (loop_step net config jobID url_parses _ _ _ _ _ js Hdesc Hfetch).
    rewrite clock_after_S in Hin. rewrite (clock_after_S _ _ _ _ _ (S n)) in Hout.
    pose proof (clock_after_grows net config jobID n
                  (trace w ++ [poll_request config jobID])
                  (now w + Z.of_N (latency (respond net (trace w)
                                              (poll_request config jobID)))
                   + PollingIntervalMS * Millisecond)) as Hgrow.
    cbv zeta in Hgrow.
    assert (0 <= Z.of_nat n * (PollingIntervalMS * Millisecond)) as Hpos
      by (unfold PollingIntervalMS, Millisecond; lia).
    unfold after_poll at 1. cbn [now].
    destruct (_ >? _) eqn:Hover; [apply Z.gtb_lt in Hover; lia |].
    rewrite (IH fuel start _ _ (after_poll net config jobID w));
      unfold after_poll; cbn [now trace].
    + rewrite (clock_after_S _ _ _ (trace w)). cbn [repeat].
      rewrite <- app_assoc. reflexivity.
    + apply Hjs. lia.
    + lia.
    + intros k Hk. destruct (Hpolls (S k) ltac:(lia)) as (js' & Hfetch' & Hjs').
      exists js'. split; [exact Hfetch' | intros Hlt; apply Hjs'; lia].
    + exact Hin.
    + exact Hout.
Qed.

End Timeout.

(** C1.  The timeout error replaces a terminal status that was fetched
    within the budget.  The first poll of job 7 is answered after 3598
    seconds, inside the budget of 3600 seconds, with the state
    "Successful"; the pause of five seconds that follows ends after 3603
    seconds, and [waitForJob] returns the timeout error, not the status. *)
Theorem timeout_replaces_fetched_terminal_status :
  let reply := respond late_success_service [] (poll_request sample_config 7) in
  fetched reply = Some (sample_job "Successful" None)
  /\ is_terminal (JobStatus.JobState (sample_job "Successful" None)) = true
  /\ Z.of_N (latency reply) < PollingTimeoutMS * Millisecond
  /\ waitForJob late_success_service 7 sample_config fresh_world
     = (Err "Timed out while waiting for job to complete.",
        mkWorld (3603000 * Millisecond) [poll_request sample_config 7]).
Proof.
  cbv zeta. repeat split; vm_compute; reflexivity.
Qed.

(** The same on a job that runs for nearly an hour: 718 polls find it
    pending, the 719th finds it successful 3597.19 seconds after the start,
    and the call ends with the timeout error after 719 fetches. *)
Lemma timeout_replaces_success_of_slow_job :
  fetched (respond slow_job_service
             (repeat (poll_request sample_config 7) 718)
             (poll_request sample_config 7))
  = Some (sample_job "Successful" None)
  /\ clock_after slow_job_service sample_config 7 [] 0 718 + 10 * Millisecond
     = 3597190 * Millisecond
  /\ waitForJob slow_job_service 7 sample_config fresh_world
     = (Err timeout_error,
        mkWorld (3602190 * Millisecond) (repeat (poll_request sample_config 7) 719)).
Proof.
  repeat split; vm_compute; reflexivity.
Qed.

(** ** Failed jobs *)

(** A failed job that carries its list of errors is turned into an error
    whose text holds the job type, the job id and every message. *)
Lemma checkForJobErrors_reports js details errs w :
  JobStatus.JobState js = JobFailed ->
  JobStatus.ErrorDetails js = Some details ->
  JobStatus.Errors details = Some errs ->
  exists text,
    checkForJobErrors js w = (Ok (Some text), w)
    /\ Includes text (JobStatus.JobType js)
    /\ Includes text (strconv.Itoa (JobStatus.ID js))
    /\ forall m, In m errs -> Includes text (JobStatus.Message m).
Proof.
  intros Hstate Hdetails Herrs.
  eexists. split; [| split; [| split]].
  - unfold checkForJobErrors. rewrite Hstate, Hdetails.
    change (negb (String.eqb JobFailed JobSuccess)) with true. cbv iota.
    rewrite (bind_Ok _ _ w details w) by reflexivity.
    rewrite Herrs. rewrite (bind_Ok _ _ w errs w) by reflexivity.
    reflexivity.
  - apply Includes_append_l, Includes_append_r, Includes_refl.
  - do 3 apply Includes_append_l. apply Includes_append_r, Includes_refl.
  - intros m Hm. do 5 apply Includes_append_l. unfold format_messages.
    apply Includes_append_l, Includes_append_r.
    eapply (Includes_trans _ ("{" +:+ JobStatus.Message m +:+ "}")).
    + apply Includes_Join. apply in_map_iff. exists m. split; [reflexivity | exact Hm].
    + apply Includes_append_l, Includes_append_r, Includes_refl.
Qed.

(** For the details [{code: 400, errors: [{message: "bad hostname"}]}] the
    creation fails with an error that holds the message. *)
Lemma create_reports_bad_hostname :
  exists text,
    fst (fst (CreateIPAMReservation (failing_job_service (Some bad_hostname_details))
                sample_config sample_request fresh_world)) = Err text
    /\ text = "Job Provision IPAM (7) failed with message [{bad hostname}]"
    /\ Includes text "bad hostname".
Proof.
  eexists. split; [vm_compute; reflexivity |]. split; [reflexivity |].
  exists "Job Provision IPAM (7) failed with message [{", "}]". reflexivity.
Qed.

(** C3.  A job whose terminal state is "Failed" does not always come back
    as an error: when the status carries no error details, the creation ends
    in a nil dereference instead of an error value.  Here the submission is
    accepted and the first poll finds the job failed, without details. *)
Theorem failed_job_without_details_crashes_create :
  fetched (respond (failing_job_service None)
             [post_request sample_config
                (ReservationEntity
                   (IPAMReservation.set_Policy
                      (itemURL sample_config WorkspaceResourceType 42)
                      sample_request))]
             (poll_request sample_config 7))
  = Some (sample_job "Failed" None)
  /\ CreateIPAMReservation (failing_job_service None) sample_config
       sample_request fresh_world
     = (Panic NilDereference,
        IPAMReservation.set_Policy
          (itemURL sample_config WorkspaceResourceType 42) sample_request,
        mkWorld (5200 * Millisecond)
          [ post_request sample_config
              (ReservationEntity
                 (IPAMReservation.set_Policy
                    (itemURL sample_config WorkspaceResourceType 42)
                    sample_request));
            poll_request sample_config 7 ]).
Proof.
  split; vm_compute; reflexivity.
Qed.

(** C8.  The failure branch is not total.  For a job in the state "Failed"
    whose error details, or the list of errors inside them, are absent,
    [checkForJobErrors] dereferences a nil pointer; and an engine run whose
    polling ends on such a status panics instead of returning an error. *)
Theorem failure_branch_nil_dereference (js : JobStatus.t) :
  JobStatus.JobState js = JobFailed ->
  (JobStatus.ErrorDetails js = None
   \/ exists details, JobStatus.ErrorDetails js = Some details
                      /\ JobStatus.Errors details = None) ->
  (forall w, checkForJobErrors js w = (Panic NilDereference, w))
  /\
  (forall net config req httpVerb w js0 n,
     let jobID := JobStatus.ID js0 in
     let submitted := trace w ++ [req] in
     let t := now w + Z.of_N (latency (respond net (trace w) req)) in
     accepted (respond net (trace w) req) = Some js0 ->
     parses net (itemURL config JobStatusResourceType jobID) = None ->
     (forall k, (k < n)%nat ->
        exists p, fetched (poll_reply net config jobID submitted k) = Some p
                  /\ is_terminal (JobStatus.JobState p) = false) ->
     fetched (poll_reply net config jobID submitted n) = Some js ->
     clock_after net config jobID submitted t (S n) - t
       <= PollingTimeoutMS * Millisecond ->
     handleAsyncRequest net req config httpVerb w
     = (Panic NilDereference,
        mkWorld (clock_after net config jobID submitted t (S n))
                (submitted ++ repeat (poll_request config jobID) (S n)))).
Proof.
  intros Hstate Habsent.
  assert (forall w, checkForJobErrors js w = (Panic NilDereference, w)) as Hcheck.
  { intros w. unfold checkForJobErrors. rewrite Hstate.
    change (negb (String.eqb JobFailed JobSuccess)) with true. cbv iota.
    destruct Habsent as [-> | (details & -> & Herrs)]; [reflexivity |].
    rewrite (bind_Ok _ _ w details w) by reflexivity.
    rewrite Herrs. reflexivity. }
  split; [exact Hcheck |].
  intros net config req httpVerb w js0 n jobID submitted t
         Hacc Hparse Hbefore Hlast Hclock.
  rewrite (handleAsyncRequest_accepted _ _ _ _ _ _ Hacc).
  fold jobID submitted t.
  rewrite (bind_Ok _ _ _ _ _
             (waitForJob_polls net config jobID n (mkWorld t submitted) js
                Hparse Hbefore Hlast
                ltac:(rewrite Hstate; reflexivity) Hclock)).
  unfold after_polling. cbn [trace now].
  rewrite (bind_Ok _ _ _ js _) by reflexivity.
  apply bind_Panic. apply Hcheck.
Qed.

Lemma failure_branch_nil_dereference_witness :
  checkForJobErrors (sample_job "Failed" None) fresh_world
  = (Panic NilDereference, fresh_world).
Proof.
  apply (proj1 (failure_branch_nil_dereference (sample_job "Failed" None)
                  eq_refl (or_introl eq_refl))).
Defined.

(** ** Resolving the workspace *)

Section Workspace.

Variables (net : Net) (config : Config).

Let lookup := workspace_lookup_request config.

(** The world after the lookup was sent from [w]. *)
Let looked_up (w : World) : World :=
  mkWorld (now w + Z.of_N (latency (respond net (trace w) lookup)))
          (trace w ++ [lookup]).

Lemma findWorkspaceURLOrDefault_supplied workspaceURL w :
  workspaceURL <> "" ->
  findWorkspaceURLOrDefault net config workspaceURL w = (Ok workspaceURL, w).
Proof.
  intros Hurl. unfold findWorkspaceURLOrDefault.
  apply String.eqb_neq in Hurl. rewrite Hurl. reflexivity.
Qed.

(** Without a workspace URL the lookup is sent, and what it lists decides. *)
Lemma findWorkspaceURLOrDefault_lookup w :
  parses net (URL lookup) = None ->
  exists o,
    findWorkspaceURLOrDefault net config "" w = (o, looked_up w)
    /\ match listed (respond net (trace w) lookup) with
       | Some (first :: _) =>
           strconv.in_int_range (Workspace.ID first) ->
           o = Ok (itemURL config WorkspaceResourceType (Workspace.ID first))
       | Some [] => o = Err empty_lookup_error
       | None => exists e, o = Err e
       end.
Proof.
  intros Hparse. cbn in Hparse.
  unfold findWorkspaceURLOrDefault. cbn [String.eqb].
  unfold bind at 1, try at 1, findDefaultWorkspaceID, http_NewRequest.
  rewrite Hparse. unfold bind, try, client_Do, listed, go_return, WithMessage, fail, ret.
  fold (get_request config
          (collectionURL config WorkspaceResourceType +:+ "?" +:+ "filter=name.exact:Default")).
  fold (workspace_lookup_request config). fold lookup. unfold looked_up.
  destruct (respond net (trace w) lookup) as [lat [msg | res]]; cbn [outcome latency].
  - eexists. split; [reflexivity | eauto].
  - unfold readResponse. destruct (StatusCode res >=? 400) eqn:H400.
    + destruct (checkForErrors_from_400 res H400) as [e ->].
      eexists. split; [reflexivity | eauto].
    + rewrite (checkForErrors_below_400 res H400).
      destruct (ResBody res) as [msg | body].
      * eexists. split; [reflexivity | eauto].
      * destruct (WorkspacesListResponse.Workspaces (asWorkspaces body))
          as [| first rest].
        -- eexists. split; reflexivity.
        -- destruct (strconv.Atoi (strconv.Itoa (Workspace.ID first)))
             as [n [err |]] eqn:Hatoi.
           ++ eexists. split; [reflexivity |]. intros Hrange.
              rewrite (Atoi_Itoa _ Hrange) in Hatoi. discriminate.
           ++ eexists. split; [reflexivity |]. intros Hrange.
              rewrite (Atoi_Itoa _ Hrange) in Hatoi. injection Hatoi as <-.
              reflexivity.
Qed.

(** Resolving the workspace returns a URL or an error, and sends at most
    the lookup. *)
Lemma findWorkspaceURLOrDefault_shape workspaceURL w :
  exists o w',
    findWorkspaceURLOrDefault net config workspaceURL w = (o, w')
    /\ ((exists url, o = Ok url) \/ (exists e, o = Err e))
    /\ (w' = w \/ (workspaceURL = "" /\ w' = looked_up w)).
Proof.
  destruct (String.eqb_spec workspaceURL "") as [-> | Hurl].
  - destruct (parses net (URL lookup)) as [e |] eqn:Hparse.
    + cbn in Hparse. unfold findWorkspaceURLOrDefault. cbn [String.eqb].
      unfold bind at 1, try at 1, findDefaultWorkspaceID, http_NewRequest.
      rewrite Hparse. cbn. do 2 eexists. split; [reflexivity |].
      split; [right; eauto | left; reflexivity].
    + cbn in Hparse. unfold findWorkspaceURLOrDefault. cbn [String.eqb].
      unfold bind at 1, try at 1, findDefaultWorkspaceID, http_NewRequest.
      rewrite Hparse.
      unfold bind, try, client_Do, go_return, WithMessage, fail, ret.
      fold (get_request config
              (collectionURL config WorkspaceResourceType +:+ "?"
                 +:+ "filter=name.exact:Default")).
      fold (workspace_lookup_request config). fold lookup. unfold looked_up.
      destruct (respond net (trace w) lookup) as [lat [msg | res]];
        cbn [outcome latency].
      * do 2 eexists. split; [reflexivity |]. split; [right; eauto | right; auto].
      * destruct (readResponse res) as [err | body].
        -- do 2 eexists. split; [reflexivity |]. split; [right; eauto | right; auto].
        -- destruct (WorkspacesListResponse.Workspaces (asWorkspaces body))
             as [| first rest].
           ++ do 2 eexists. split; [reflexivity |].
              split; [right; eauto | right; auto].
           ++ destruct (strconv.Atoi (strconv.Itoa (Workspace.ID first)))
                as [n [err |]];
                (do 2 eexists; split; [reflexivity |]; split; [eauto | right; auto]).
  - rewrite (findWorkspaceURLOrDefault_supplied _ w Hurl).
    do 2 eexists. split; [reflexivity |]. split; [left; eauto | left; reflexivity].
Qed.

(** How [CreateIPAMReservation] goes on once the workspace is resolved. *)
Lemma Create_resolved r w url w1 :
  findWorkspaceURLOrDefault net config (IPAMReservation.WorkspaceURL r) w = (Ok url, w1) ->
  CreateIPAMReservation net config r w =
    let r1 := IPAMReservation.set_WorkspaceURL url r in
    if String.eqb (IPAMReservation.Policy_ r) "" then
      if negb (IPAMReservation.PolicyID r =? 0) then
        let r2 := IPAMReservation.set_Policy
                    (itemURL config WorkspaceResourceType (IPAMReservation.PolicyID r))
                    r1 in
        with_record r2
          (match buildPostRequest net config IPAMReservationResourceType
                   (ReservationEntity r2) with
           | inl err => fail err
           | inr req =>
               let* res := handleAsyncRequestAndFetchManagdObject net req config
                             IPAMReservation.zero "POST" in
               ret (snd res)
           end) w1
      else (Err policy_required_error, r1, w1)
    else (Err policy_required_error, r1, w1).
Proof.
  intros Hfind. unfold CreateIPAMReservation, try. rewrite Hfind. reflexivity.
Qed.

Lemma Create_unresolved r w e w1 :
  findWorkspaceURLOrDefault net config (IPAMReservation.WorkspaceURL r) w = (Err e, w1) ->
  CreateIPAMReservation net config r w
  = (Err e, IPAMReservation.set_WorkspaceURL "" r, w1).
Proof.
  intros Hfind. unfold CreateIPAMReservation, try. rewrite Hfind. reflexivity.
Qed.

End Workspace.

(** ** Creating a reservation *)

Lemma unchanged_elsewhere_refl r : unchanged_elsewhere r r.
Proof. repeat split. Qed.

Lemma set_WorkspaceURL_same r :
  IPAMReservation.set_WorkspaceURL (IPAMReservation.WorkspaceURL r) r = r.
Proof. destruct r. reflexivity. Qed.

Lemma lookup_is_not_mutating config :
  is_mutating (workspace_lookup_request config) = false.
Proof. reflexivity. Qed.

(** Counterexample to C4 as stated.  The workspace is resolved before the
    policy reference is looked at: a record without workspace URL and
    without policy reference is refused only after the lookup of the default
    workspace was sent. *)
Lemma lookup_precedes_policy_check :
  policy_ambiguous request_without_policy
  /\ CreateIPAMReservation lookup_service sample_config
       request_without_policy fresh_world
     = (Err policy_required_error,
        IPAMReservation.set_WorkspaceURL
          (itemURL sample_config WorkspaceResourceType 1) request_without_policy,
        mkWorld (50 * Millisecond) [workspace_lookup_request sample_config])
  /\ ~ rejected_without_request lookup_service sample_config
         request_without_policy fresh_world.
Proof.
  assert (CreateIPAMReservation lookup_service sample_config
            request_without_policy fresh_world
          = (Err policy_required_error,
             IPAMReservation.set_WorkspaceURL
               (itemURL sample_config WorkspaceResourceType 1) request_without_policy,
             mkWorld (50 * Millisecond) [workspace_lookup_request sample_config]))
    as Hrun by (vm_compute; reflexivity).
  split; [left; split; reflexivity |]. split; [exact Hrun |].
  unfold rejected_without_request. rewrite Hrun.
  intros [_ Htrace]. discriminate Htrace.
Qed.

(** C4, amended.  A record that supplies neither a policy id nor a policy
    URL, or both, is never submitted: the creation returns an error, and the
    only request it may send is the GET that looks up the default
    workspace, sent first when the record has no workspace URL.  With a
    workspace URL nothing is sent at all and the error is the
    request-construction error; so it is whenever the workspace is
    resolved. *)
Theorem ambiguous_policy_never_submitted net config r w :
  policy_ambiguous r ->
  exists e r' w',
    CreateIPAMReservation net config r w = (Err e, r', w')
    /\ (w' = w
        \/ (IPAMReservation.WorkspaceURL r = ""
            /\ w' = mkWorld
                      (now w + Z.of_N (latency (respond net (trace w)
                                                  (workspace_lookup_request config))))
                      (trace w ++ [workspace_lookup_request config])))
    /\ (IPAMReservation.WorkspaceURL r <> "" -> e = policy_required_error /\ w' = w)
    /\ (forall url w1,
          findWorkspaceURLOrDefault net config (IPAMReservation.WorkspaceURL r) w
          = (Ok url, w1) ->
          e = policy_required_error)
    /\ (forall req, In req (trace w') -> In req (trace w) \/ is_mutating req = false).
Proof.
  intros Hpolicy.
  assert (forall w', (w' = w
            \/ (IPAMReservation.WorkspaceURL r = ""
                /\ w' = mkWorld
                          (now w + Z.of_N (latency (respond net (trace w)
                                                      (workspace_lookup_request config))))
                          (trace w ++ [workspace_lookup_request config]))) ->
          forall req, In req (trace w') -> In req (trace w) \/ is_mutating req = false)
    as Hsent.
  { intros w' [-> | [_ ->]] req Hin; [left; exact Hin |].
    cbn [trace] in Hin. apply in_app_or in Hin as [Hin | [<- | []]]; [left; exact Hin |].
    right. apply lookup_is_not_mutating. }
  destruct (findWorkspaceURLOrDefault_shape net config
              (IPAMReservation.WorkspaceURL r) w)
    as (o & w1 & Hfind & [[url ->] | [e ->]] & Hworld).
  - rewrite (Create_resolved _ _ _ _ _ _ Hfind). cbv zeta.
    exists policy_required_error, (IPAMReservation.set_WorkspaceURL url r), w1.
    split.
    + destruct Hpolicy as [[Hid Hurl] | [Hid Hurl]].
      * rewrite Hurl, Hid. reflexivity.
      * apply String.eqb_neq in Hurl. rewrite Hurl. reflexivity.
    + split; [exact Hworld |]. split; [| split; [reflexivity | apply Hsent, Hworld]].
      intros Hsupplied. split; [reflexivity |].
      rewrite (findWorkspaceURLOrDefault_supplied _ _ _ w Hsupplied) in Hfind.
      congruence.
  - rewrite (Create_unresolved _ _ _ _ _ _ Hfind).
    exists e, (IPAMReservation.set_WorkspaceURL "" r), w1.
    split; [reflexivity |]. split; [exact Hworld |].
    split; [| split; [| apply Hsent, Hworld]].
    + intros Hsupplied.
      rewrite (findWorkspaceURLOrDefault_supplied _ _ _ w Hsupplied) in Hfind.
      discriminate.
    + intros url w2 Hfind'. rewrite Hfind' in Hfind. discriminate.
Qed.

Lemma ambiguous_policy_never_submitted_witness :
  exists e r' w',
    CreateIPAMReservation lookup_service sample_config request_without_policy
      fresh_world = (Err e, r', w')
    /\ (forall req, In req (trace w') ->
          In req (trace fresh_world) \/ is_mutating req = false).
Proof.
  destruct (ambiguous_policy_never_submitted lookup_service sample_config
              request_without_policy fresh_world
              (or_introl (conj eq_refl eq_refl)))
    as (e & r' & w' & Hrun & _ & _ & _ & Hsent).
  exists e, r', w'. split; [exact Hrun | exact Hsent].
Defined.

(** C5.  The policy reference that is submitted is not the item URL of a
    policy: [CreateIPAMReservation] builds it with the resource type of
    workspaces.  For the policy id 42 the reservation posted carries
    [.../workspaces/42/] where the item URL of the policy is
    [.../modulePolicies/42/]. *)
Theorem policy_reference_built_from_workspace_type :
  exists o r' w',
    CreateIPAMReservation three_poll_service sample_config sample_request
      fresh_world = (o, r', w')
    /\ head (trace w') = Some (post_request sample_config (ReservationEntity r'))
    /\ IPAMReservation.PolicyID r' = 42
    /\ IPAMReservation.Policy_ r'
       = "https://onefuse.example:443/api/v3/onefuse/workspaces/42/"
    /\ itemURL sample_config ModulePolicyResourceType 42
       = "https://onefuse.example:443/api/v3/onefuse/modulePolicies/42/"
    /\ IPAMReservation.Policy_ r' <> itemURL sample_config ModulePolicyResourceType 42
    /\ IPAMReservation.Policy_ r' <> itemURL sample_config IPAMPolicyResourceType 42.
Proof.
  do 3 eexists. split; [vm_compute; reflexivity |].
  repeat split; try reflexivity; vm_compute; discriminate.
Qed.

(** With a workspace listed, the resolved URL is the item URL of the first
    workspace the lookup by the exact name "Default" returned. *)
Lemma default_workspace_resolved net config w first rest :
  parses net (URL (workspace_lookup_request config)) = None ->
  listed (respond net (trace w) (workspace_lookup_request config))
  = Some (first :: rest) ->
  strconv.in_int_range (Workspace.ID first) ->
  findWorkspaceURLOrDefault net config "" w
  = (Ok (itemURL config WorkspaceResourceType (Workspace.ID first)),
     mkWorld (now w + Z.of_N (latency (respond net (trace w)
                                         (workspace_lookup_request config))))
             (trace w ++ [workspace_lookup_request config]))
  /\ URL (workspace_lookup_request config)
     = collectionURL config WorkspaceResourceType +:+ "?filter=name.exact:Default".
Proof.
  intros Hparse Hlisted Hrange.
  destruct (findWorkspaceURLOrDefault_lookup net config w Hparse) as (o & Hrun & Ho).
  rewrite Hlisted in Ho. rewrite (Ho Hrange) in Hrun.
  split; [exact Hrun | reflexivity].
Qed.

(** C6.  When no workspace named "Default" exists the creation fails and
    sends nothing but the lookup, yet not with the not-found error: the
    message built for the empty list wraps a nil error and is lost, the
    lookup returns an empty id without error, and the caller fails on
    converting that id to an integer. *)
Theorem missing_default_workspace_error :
  listed (respond no_workspace_service [] (workspace_lookup_request sample_config))
  = Some []
  /\ WithMessage None "athena.findDefaultWorkspaceID: Failed to find default workspace!"
     = None
  /\ findDefaultWorkspaceID no_workspace_service sample_config fresh_world
     = (Ok "", mkWorld (50 * Millisecond) [workspace_lookup_request sample_config])
  /\ CreateIPAMReservation no_workspace_service sample_config
       request_without_workspace fresh_world
     = (Err empty_lookup_error,
        request_without_workspace,
        mkWorld (50 * Millisecond) [workspace_lookup_request sample_config])
  /\ strings.Contains empty_lookup_error "Failed to find default workspace" = false
  /\ strings.Contains empty_lookup_error "Failed to convert Workspace ID" = true.
Proof.
  repeat split; vm_compute; reflexivity.
Qed.

(** C10.  [CreateIPAMReservation] writes into the record it was given: the
    workspace URL field receives the resolved workspace URL and, for a
    record with a policy id and no policy URL, the policy URL field receives
    the URL built from the policy id; the record is posted as it then
    stands.  Every other field stays as it was, and a record whose
    workspace cannot be resolved is not changed at all. *)
Theorem create_overwrites_workspace_and_policy net config r w :
  exists o r' w',
    CreateIPAMReservation net config r w = (o, r', w')
    /\ unchanged_elsewhere r r'
    /\ (forall e w1,
          findWorkspaceURLOrDefault net config (IPAMReservation.WorkspaceURL r) w
          = (Err e, w1) -> r' = r)
    /\ (forall url w1,
          findWorkspaceURLOrDefault net config (IPAMReservation.WorkspaceURL r) w
          = (Ok url, w1) ->
          IPAMReservation.WorkspaceURL r' = url
          /\ (IPAMReservation.Policy_ r = "" ->
              IPAMReservation.PolicyID r <> 0 ->
              IPAMReservation.Policy_ r'
              = itemURL config WorkspaceResourceType (IPAMReservation.PolicyID r)
              /\ (parses net (collectionURL config IPAMReservationResourceType) = None ->
                  exists sent,
                    trace w'
                    = trace w1 ++ post_request config (ReservationEntity r') :: sent))).
Proof.
  destruct (findWorkspaceURLOrDefault_shape net config
              (IPAMReservation.WorkspaceURL r) w)
    as (o & w1 & Hfind & [[url ->] | [e ->]] & Hworld).
  - rewrite (Create_resolved _ _ _ _ _ _ Hfind). cbv zeta.
    destruct (String.eqb_spec (IPAMReservation.Policy_ r) "") as [Hurl | Hurl].
    + destruct (Z.eqb_spec (IPAMReservation.PolicyID r) 0) as [Hid | Hid]; cbn [negb].
      * do 3 eexists. split; [reflexivity |]. split; [repeat split |].
        split; [intros e w2 He; congruence |].
        intros url' w2 Hfind'. rewrite Hfind in Hfind'. injection Hfind' as <- <-.
        split; [reflexivity | intros _ Hne; contradiction].
      * unfold with_record.
        set (r2 := IPAMReservation.set_Policy _ _).
        match goal with
        | |- context [let '(o, w') := ?m w1 in _] => destruct (m w1) as [o' w'] eqn:Hrun
        end.
        do 3 eexists. split; [reflexivity |]. split; [repeat split |].
        split; [intros e w2 He; congruence |].
        intros url' w2 Hfind'. rewrite Hfind in Hfind'. injection Hfind' as <- <-.
        split; [reflexivity |]. intros _ _. split; [reflexivity |].
        intros Hparse. revert Hrun.
        unfold buildPostRequest, http_NewRequest. rewrite Hparse.
        fold (post_request config (ReservationEntity r2)).
        intros Hrun.
        destruct (fetch_managed_sends_first net config
                    (post_request config (ReservationEntity r2))
                    IPAMReservation.zero "POST" w1) as (sent & Hsent).
        exists sent. rewrite <- Hsent.
        change w' with (snd (o', w')). rewrite <- Hrun.
        rewrite bind_snd_pure by reflexivity. reflexivity.
    + do 3 eexists. split; [reflexivity |]. split; [repeat split |].
      split; [intros e w2 He; congruence |].
      intros url' w2 Hfind'. rewrite Hfind in Hfind'. injection Hfind' as <- <-.
      split; [reflexivity | intros Hne; contradiction].
  - rewrite (Create_unresolved _ _ _ _ _ _ Hfind).
    do 3 eexists. split; [reflexivity |]. split; [repeat split |].
    split; [| intros url w2 Hfind'; congruence].
    intros _ _ _.
    destruct (String.eqb_spec (IPAMReservation.WorkspaceURL r) "") as [Hempty | Hsupplied].
    + rewrite <- Hempty at 1. apply set_WorkspaceURL_same.
    + rewrite (findWorkspaceURLOrDefault_supplied _ _ _ w Hsupplied) in Hfind.
      discriminate.
Qed.

Lemma create_overwrites_workspace_and_policy_witness :
  exists o r' w',
    CreateIPAMReservation lookup_service sample_config request_without_workspace
      fresh_world = (o, r', w')
    /\ unchanged_elsewhere request_without_workspace r'
    /\ IPAMReservation.WorkspaceURL r'
       = "https://onefuse.example:443/api/v3/onefuse/workspaces/1/"
    /\ IPAMReservation.Policy_ r'
       = "https://onefuse.example:443/api/v3/onefuse/workspaces/42/".
Proof.
  destruct (create_overwrites_workspace_and_policy lookup_service sample_config
              request_without_workspace fresh_world)
    as (o & r' & w' & Hrun & Hframe & _ & Hset).
  destruct (Hset (itemURL sample_config WorkspaceResourceType 1)
              (mkWorld (50 * Millisecond) [workspace_lookup_request sample_config])
              eq_refl) as [Hws Hpolicy].
  destruct (Hpolicy eq_refl ltac:(discriminate)) as [Hp _].
  exists o, r', w'. repeat split; try apply Hframe; assumption.
Defined.

(** ** The binding adapter *)

Section Decimal_syntax.
Import strconv.

Lemma parse_digits_not_digits s :
  all_digits s = false -> forall acc, parse_digits s acc = None.
Proof.
  induction s as [| c s IH]; intros Hs acc; [discriminate |].
  cbn [all_digits parse_digits] in *.
  destruct (digit_val c); [apply IH; exact Hs | reflexivity].
Qed.

(** What is not in the syntax of a decimal integer is a syntax error for
    [Atoi], which returns 0 with it. *)
Lemma Atoi_not_decimal s :
  is_decimal s = false -> Atoi s = (0, Some (syntax_error s)).
Proof.
  unfold is_decimal, Atoi. intros Hs.
  destruct s as [| c rest]; [reflexivity |].
  destruct (Ascii.eqb c "+"); cbn [orb] in Hs.
  - destruct rest as [| c' rest']; [reflexivity |].
    rewrite parse_digits_not_digits by exact Hs. reflexivity.
  - destruct (Ascii.eqb c "-").
    + destruct rest as [| c' rest']; [reflexivity |].
      rewrite parse_digits_not_digits by exact Hs. reflexivity.
    + rewrite parse_digits_not_digits by exact Hs. reflexivity.
Qed.

End Decimal_syntax.

Lemma split_on_nonempty sep s :
  forall cur, (1 <= length (strings.split_on sep s cur))%nat.
Proof.
  induction s as [| c s IH]; intros cur; cbn [strings.split_on].
  - cbn. lia.
  - destruct (Ascii.eqb c sep); [cbn; lia | apply IH].
Qed.

(** Setting an attribute of the schema to a value of its type succeeds. *)
Lemma set_or_return_ok key value message ty before values rid :
  type_of key = Some ty ->
  has_type value ty = true ->
  set_or_return key value message (mkResourceData before values rid)
  = (Ok tt, mkResourceData before (<[key := value]> values) rid).
Proof.
  intros Hkey Hty. unfold set_or_return, Set_. rewrite Hkey, Hty. reflexivity.
Qed.

Ltac set_attribute :=
  erewrite bind_Ok by (apply set_or_return_ok with (ty := TypeString); reflexivity).

(** C9.  Binding a reservation needs its links block and a policy href
    with at least two segments: (1) without links block it panics on a nil
    dereference; (2) with a policy href of fewer than two segments, (3) in
    particular an empty one, it panics on the index -1; (4) a
    second-to-last segment that is not a decimal integer gives the policy id
    0, and the binding returns without error. *)
Theorem bind_needs_links_and_policy_segments :
  (forall r d,
     IPAMReservation.Links r = None ->
     exists d', bindIPAMReservationResource r d = (Panic NilDereference, d'))
  /\
  (forall r links d,
     IPAMReservation.Links r = Some links ->
     (length (strings.Split (LinkRef.Href (IPAMReservation.Policy links)) "/") < 2)%nat ->
     exists d',
       bindIPAMReservationResource r d = (Panic (IndexOutOfRange (-1) 1), d'))
  /\
  (forall r links d,
     IPAMReservation.Links r = Some links ->
     LinkRef.Href (IPAMReservation.Policy links) = "" ->
     exists d',
       bindIPAMReservationResource r d = (Panic (IndexOutOfRange (-1) 1), d'))
  /\
  (forall r links d segments segment,
     IPAMReservation.Links r = Some links ->
     strings.Split (LinkRef.Href (IPAMReservation.Policy links)) "/" = segments ->
     nth_error segments (length segments - 2) = Some segment ->
     (2 <= length segments)%nat ->
     is_decimal segment = false ->
     exists d',
       bindIPAMReservationResource r d = (Ok tt, d')
       /\ attrs d' !! "policy_id" = Some (VInt 0)).
Proof.
  assert (forall r links d,
            IPAMReservation.Links r = Some links ->
            (length (strings.Split (LinkRef.Href (IPAMReservation.Policy links)) "/") < 2)%nat ->
            exists d',
              bindIPAMReservationResource r d = (Panic (IndexOutOfRange (-1) 1), d'))
    as Hshort.
  { intros r links [before values rid] Hlinks Hlen.
    pose proof (split_on_nonempty "/" (LinkRef.Href (IPAMReservation.Policy links)) "")
      as Hone.
    fold (strings.Split (LinkRef.Href (IPAMReservation.Policy links)) "/") in Hone.
    unfold bindIPAMReservationResource. set_attribute.
    rewrite Hlinks. rewrite (bind_Ok _ _ _ links _) by reflexivity.
    do 10 set_attribute. cbv zeta.
    eexists. apply bind_Panic. unfold index.
    replace (length (strings.Split (LinkRef.Href (IPAMReservation.Policy links)) "/"))
      with 1%nat by lia.
    reflexivity. }
  split; [| split; [exact Hshort | split]].
  - intros r [before values rid] Hlinks.
    unfold bindIPAMReservationResource. set_attribute.
    rewrite Hlinks. eexists. apply bind_Panic. reflexivity.
  - intros r links d Hlinks Hhref. apply (Hshort r links d Hlinks).
    rewrite Hhref. cbn. lia.
  - intros r links [before values rid] segments segment Hlinks Hsplit Hnth Hlen Hsegment.
    unfold bindIPAMReservationResource. set_attribute.
    rewrite Hlinks. rewrite (bind_Ok _ _ _ links _) by reflexivity.
    do 10 set_attribute. cbv zeta. rewrite Hsplit.
    erewrite bind_Ok.
    2:{ unfold index.
        replace ((Z.of_nat (length segments) - 2 <? 0)
                 || (Z.of_nat (length segments) <=? Z.of_nat (length segments) - 2))
          with false
          by (symmetry; apply orb_false_intro; [apply Z.ltb_ge | apply Z.leb_gt]; lia).
        replace (Z.to_nat (Z.of_nat (length segments) - 2))
          with (length segments - 2)%nat by lia.
        rewrite Hnth. reflexivity. }
    rewrite (Atoi_not_decimal _ Hsegment).
    erewrite set_or_return_ok with (ty := TypeInt) by reflexivity.
    eexists. split; [reflexivity |]. cbn [attrs]. apply lookup_insert_eq.
Qed.

Lemma bind_needs_links_and_policy_segments_witness :
  (exists d',
     bindIPAMReservationResource (with_links None) empty_resource
     = (Panic NilDereference, d'))
  /\ (exists d',
        bindIPAMReservationResource (with_links (Some (links_with_policy "")))
          empty_resource
        = (Panic (IndexOutOfRange (-1) 1), d'))
  /\ (exists d',
        bindIPAMReservationResource
          (with_links (Some (links_with_policy "/api/v3/onefuse/modulePolicies/abc/")))
          empty_resource
        = (Ok tt, d')
        /\ attrs d' !! "policy_id" = Some (VInt 0)).
Proof.
  destruct bind_needs_links_and_policy_segments as (Hnil & _ & Hempty & Hword).
  split; [| split].
  - apply Hnil. reflexivity.
  - apply (Hempty _ (links_with_policy "")); reflexivity.
  - apply (Hword _ (links_with_policy "/api/v3/onefuse/modulePolicies/abc/") _
             [""; "api"; "v3"; "onefuse"; "modulePolicies"; "abc"; ""] "abc");
      try reflexivity.
    cbn. lia.
Defined.

(** ** The update entry point *)

Lemma bind_not_Ok {S A B} (m : St S A) (k : A -> St S B) s b :
  (forall a s', fst (k a s') <> Ok b) -> fst (bind m k s) <> Ok b.
Proof.
  intros Hk. unfold bind. destruct (m s) as [[a | e | p |] s']; cbn [fst];
    [apply Hk | discriminate | discriminate | discriminate].
Qed.

Lemma keeps_bind {S A B} (m : St S A) (k : A -> St S B) :
  keeps m -> (forall a, keeps (k a)) -> keeps (bind m k).
Proof.
  intros Hm Hk s. unfold bind. specialize (Hm s).
  destruct (m s) as [[a | e | p |] s']; cbn [snd] in *; subst; auto.
  apply Hk.
Qed.

Lemma keeps_bind_Err {S A B} (m : St S A) (k : A -> St S B) :
  (forall s, exists e, m s = (Err e, s)) -> keeps (bind m k).
Proof.
  intros Hm s. destruct (Hm s) as [e He]. unfold bind. rewrite He. reflexivity.
Qed.

Lemma keeps_get_string d key : keeps (get_string d key).
Proof. intros s. unfold get_string. destruct (Get d key) as [[] |]; reflexivity. Qed.

Lemma keeps_get_int d key : keeps (get_int d key).
Proof. intros s. unfold get_int. destruct (Get d key) as [[] |]; reflexivity. Qed.

Lemma keeps_get_list d key : keeps (get_list d key).
Proof. intros s. unfold get_list. destruct (Get d key) as [[] |]; reflexivity. Qed.

Lemma keeps_get_map d key : keeps (get_map d key).
Proof. intros s. unfold get_map. destruct (Get d key) as [[] |]; reflexivity. Qed.

Lemma keeps_collect_suffixes groups :
  forall acc, keeps (collect_suffixes groups acc).
Proof.
  induction groups as [| [| s | n | b] groups IH]; intros acc st;
    cbn [collect_suffixes]; try reflexivity.
  apply IH.
Qed.

(** The update entry point never touches the resource data or the world:
    whatever it returns, nothing was set and nothing was sent. *)
Lemma update_keeps net config : keeps (resourceIPAMReservationUpdate net config).
Proof.
  unfold resourceIPAMReservationUpdate.
  apply keeps_bind; [intros s; reflexivity |]. intros d.
  destruct (negb (changed d)); [intros s; reflexivity |].
  apply keeps_bind; [apply keeps_get_list |]. intros groups.
  apply keeps_bind; [apply keeps_collect_suffixes |]. intros suffixes.
  apply keeps_bind; [apply keeps_get_string |]. intros hostname.
  apply keeps_bind; [apply keeps_get_int |]. intros policy_id.
  do 10 (apply keeps_bind; [apply keeps_get_string |]; intros ?).
  apply keeps_bind; [apply keeps_get_map |]. intros properties.
  destruct (strconv.Atoi (id d)) as [intID [err |]]; [intros s; reflexivity |].
  apply keeps_bind_Err. intros [d' w']. eexists. reflexivity.
Qed.

Lemma changed_of_tracked d key :
  In key tracked_keys -> HasChange d key = true -> changed d = true.
Proof.
  intros Hin Hkey. unfold changed. cbn in Hin.
  repeat (destruct Hin as [<- | Hin];
          [rewrite Hkey;
           repeat match goal with
                  | |- context [?b || true] => rewrite (orb_true_r b)
                  end; reflexivity |]).
  destruct Hin.
Qed.

Lemma unchanged_of_tracked d :
  (forall key, In key tracked_keys -> HasChange d key = false) -> changed d = false.
Proof.
  intros Hkeys. unfold changed.
  rewrite !Hkeys by (cbn; tauto). reflexivity.
Qed.

(** Once a change is seen, the entry point cannot return success: it goes
    on to [UpdateIPAMReservation], which is not implemented. *)
Lemma update_changed_not_Ok net config d w :
  changed d = true ->
  fst (resourceIPAMReservationUpdate net config (d, w)) <> Ok tt.
Proof.
  intros Hchanged. unfold resourceIPAMReservationUpdate.
  rewrite (bind_Ok _ _ (d, w) d (d, w)) by reflexivity.
  rewrite Hchanged. cbn [negb].
  do 15 (apply bind_not_Ok; intros ? ?).
  destruct (strconv.Atoi (id d)) as [intID [err |]]; [discriminate |].
  cbv beta iota zeta delta [bind liftW UpdateIPAMReservation fail fst snd].
  discriminate.
Qed.

(** Counterexample to C7 as stated.  The list of search suffixes is an
    attribute of the schema that the change test leaves out: editing it
    alone is answered with success, and no update is attempted. *)
Lemma suffix_edit_goes_unnoticed :
  In "dns_search_suffix" schema_keys
  /\ HasChange suffix_edit "dns_search_suffix" = true
  /\ changed suffix_edit = false
  /\ resourceIPAMReservationUpdate lookup_service sample_config
       (suffix_edit, fresh_world)
     = (Ok tt, (suffix_edit, fresh_world))
  /\ ~ update_tracks "dns_search_suffix"
  /\ ~ (forall key, In key schema_keys -> update_tracks key).
Proof.
  assert (resourceIPAMReservationUpdate lookup_service sample_config
            (suffix_edit, fresh_world)
          = (Ok tt, (suffix_edit, fresh_world))) as Hrun
    by (vm_compute; reflexivity).
  assert (HasChange suffix_edit "dns_search_suffix" = true) as Hedit
    by (vm_compute; reflexivity).
  assert (In "dns_search_suffix" schema_keys) as Hin by (cbn; tauto).
  assert (~ update_tracks "dns_search_suffix") as Hnot.
  { intros Htracks.
    apply (Htracks lookup_service sample_config suffix_edit fresh_world Hedit).
    rewrite Hrun. reflexivity. }
  split; [exact Hin |]. split; [exact Hedit |].
  split; [vm_compute; reflexivity |]. split; [exact Hrun |].
  split; [exact Hnot |].
  intros Hall. apply Hnot, Hall, Hin.
Qed.

(** C7, amended.  The update path reports "not implemented" for every id
    and record.  The update entry point returns success, with nothing set
    and nothing sent, whenever none of the attributes it compares has
    changed; these are the attributes of the schema except the list of
    search suffixes, and a change of any of them makes it go on to the
    update.  It never sends a request. *)
Theorem update_unsupported_and_skipped_when_unchanged :
  (forall config id r w,
     UpdateIPAMReservation config id r w = (Err not_implemented_error, w))
  /\ not_implemented_error = "athena.apiClient: Not implemented yet"
  /\ (forall net config d w,
        (forall key, In key tracked_keys -> HasChange d key = false) ->
        resourceIPAMReservationUpdate net config (d, w) = (Ok tt, (d, w)))
  /\ (forall key,
        In key tracked_keys <-> In key schema_keys /\ key <> "dns_search_suffix")
  /\ (forall key, In key tracked_keys -> update_tracks key)
  /\ (forall net config d w,
        snd (resourceIPAMReservationUpdate net config (d, w)) = (d, w)).
Proof.
  split; [reflexivity |]. split; [reflexivity |].
  split; [| split; [| split]].
  - intros net config d w Hkeys. unfold resourceIPAMReservationUpdate.
    rewrite (bind_Ok _ _ (d, w) d (d, w)) by reflexivity.
    rewrite (unchanged_of_tracked d Hkeys). reflexivity.
  - intros key. split.
    + intros Hin. cbn in Hin.
      repeat (destruct Hin as [<- | Hin]; [split; [cbn; tauto | discriminate] |]).
      destruct Hin.
    + intros [Hin Hne]. cbn in Hin.
      repeat (destruct Hin as [<- | Hin]; [try (cbn; tauto); contradiction |]).
      destruct Hin.
  - intros key Hin net config d w Hkey.
    apply update_changed_not_Ok. apply (changed_of_tracked d key Hin Hkey).
  - intros net config d w. apply update_keeps.
Qed.

Lemma update_unsupported_and_skipped_when_unchanged_witness :
  resourceIPAMReservationUpdate lookup_service sample_config
    (suffix_edit, fresh_world)
  = (Ok tt, (suffix_edit, fresh_world))
  /\ fst (resourceIPAMReservationUpdate lookup_service sample_config
            (hostname_edit, fresh_world)) <> Ok tt.
Proof.
  destruct update_unsupported_and_skipped_when_unchanged
    as (_ & _ & Hskip & _ & Htracked & _).
  split.
  - apply Hskip. intros key Hin. cbn in Hin.
    repeat (destruct Hin as [<- | Hin]; [vm_compute; reflexivity |]).
    destruct Hin.
  - apply (Htracked "hostname"); [cbn; tauto | vm_compute; reflexivity].
Defined.

(** * Further properties *)

(** ** URLs *)

Lemma length_append (a b : string) :
  String.length (a +:+ b) = (String.length a + String.length b)%nat.
Proof.
  induction a as [| c a IH]; [reflexivity |].
  change (S (String.length (a +:+ b)) = S (String.length a + String.length b)).
  rewrite IH. reflexivity.
Qed.

Lemma append_cancel_l (a b c : string) : a +:+ b = a +:+ c -> b = c.
Proof.
  induction a as [| ch a IH]; intros H; [exact H |].
  change (String ch (a +:+ b) = String ch (a +:+ c)) in H.
  injection H as H. apply IH, H.
Qed.

Lemma append_cancel_r (a b c : string) : a +:+ c = b +:+ c -> a = b.
Proof.
  revert b. induction a as [| ch a IH]; intros b H.
  - destruct b as [| ch' b]; [reflexivity |].
    apply (f_equal String.length) in H. rewrite !length_append in H.
    cbn in H. lia.
  - destruct b as [| ch' b].
    + apply (f_equal String.length) in H. rewrite !length_append in H.
      cbn in H. lia.
    + change (String ch (a +:+ c) = String ch' (b +:+ c)) in H.
      injection H as -> H. f_equal. apply IH, H.
Qed.

Lemma split_on_no_slash s :
  forall cur, no_slash s = true -> strings.split_on "/" s cur = [cur +:+ s].
Proof.
  induction s as [| c s IH]; intros cur Hs.
  - cbn [strings.split_on]. rewrite append_nil_r. reflexivity.
  - cbn [no_slash] in Hs. apply andb_prop in Hs as [Hc Hs].
    apply negb_true_iff in Hc. cbn [strings.split_on]. rewrite Hc.
    rewrite IH by exact Hs. rewrite append_assoc. reflexivity.
Qed.

(** X1.  For a resource type that is one plain path element (not empty, no
    slash, neither "." nor ".."), the collection URL is
    [{scheme}://{address}:{port}/api/v3/onefuse/{resourceType}/]: cleaning the
    joined path changes nothing. *)
Theorem collectionURL_of_plain_element config resourceType :
  plain_element resourceType = true ->
  collectionURL config resourceType
  = (scheme config +:+ "://" +:+ address config +:+ ":" +:+ port config)
      +:+ "/api/v3/onefuse/" +:+ resourceType +:+ "/".
Proof.
  unfold plain_element. intros Hplain.
  apply andb_prop in Hplain as [Hplain Hdotdot].
  apply andb_prop in Hplain as [Hplain Hdot].
  apply andb_prop in Hplain as [Hslash Hempty].
  apply negb_true_iff in Hdotdot, Hdot, Hempty.
  unfold collectionURL. cbv zeta. f_equal.
  change ("/api/v3/onefuse/" +:+ resourceType +:+ "/")
    with ("/" +:+ ("api/v3/onefuse/" +:+ (resourceType +:+ "/"))).
  f_equal. rewrite <- append_assoc. f_equal.
  unfold path.Join, ApiVersion, ApiNamespace. cbn [List.filter String.eqb Ascii.eqb Bool.eqb negb].
  rewrite Hempty. cbn [negb].
  change (strings.Join ["api/v3"; "onefuse"; resourceType] "/")
    with ("api/v3/onefuse/" +:+ resourceType).
  unfold path.Clean.
  change ("api/v3/onefuse/" +:+ resourceType)
    with (String "a" ("pi/v3/onefuse/" +:+ resourceType)) at 1.
  cbv iota. cbn [Ascii.eqb Bool.eqb].
  assert (strings.Split ("api/v3/onefuse/" +:+ resourceType) "/"
          = ["api"; "v3"; "onefuse"; resourceType]) as ->.
  { unfold strings.Split.
    change ("api/v3/onefuse/" +:+ resourceType)
      with (String "a" (String "p" (String "i" (String "/"
             (String "v" (String "3" (String "/"
               (String "o" (String "n" (String "e" (String "f" (String "u"
                 (String "s" (String "e" (String "/" resourceType))))))))))))))).
    cbn [strings.split_on Ascii.eqb Bool.eqb].
    rewrite (split_on_no_slash resourceType "" Hslash). reflexivity. }
  cbn [path.clean_elems String.eqb Ascii.eqb Bool.eqb orb].
  rewrite Hempty, Hdot, Hdotdot. cbn [orb rev app]. reflexivity.
Qed.

Lemma collectionURL_of_plain_element_witness :
  collectionURL sample_config IPAMReservationResourceType
  = "https://onefuse.example:443/api/v3/onefuse/ipamReservations/".
Proof.
  rewrite (collectionURL_of_plain_element sample_config IPAMReservationResourceType);
    reflexivity.
Defined.

(** X2.  Item URLs of one resource type tell the ids apart: two 64-bit ids
    with the same item URL are equal. *)
Theorem itemURL_injective config resourceType id1 id2 :
  strconv.in_int_range id1 ->
  strconv.in_int_range id2 ->
  itemURL config resourceType id1 = itemURL config resourceType id2 ->
  id1 = id2.
Proof.
  intros H1 H2 Hurl. unfold itemURL in Hurl. cbv zeta in Hurl.
  apply append_cancel_l, append_cancel_r in Hurl.
  pose proof (Atoi_Itoa id1 H1) as Ha. rewrite Hurl, (Atoi_Itoa id2 H2) in Ha.
  congruence.
Qed.

Lemma itemURL_injective_witness :
  itemURL sample_config IPAMReservationResourceType 9
  <> itemURL sample_config IPAMReservationResourceType 10.
Proof.
  intros Hurl.
  apply (itemURL_injective sample_config IPAMReservationResourceType 9 10) in Hurl;
    [discriminate | |];
    unfold strconv.in_int_range, strconv.MinInt, strconv.MaxInt; lia.
Defined.

(** ** What is sent *)

Lemma sends_only_refl P w : sends_only P w w.
Proof. exists []. split; [symmetry; apply app_nil_r | constructor]. Qed.

Lemma sends_only_trans P w1 w2 w3 :
  sends_only P w1 w2 -> sends_only P w2 w3 -> sends_only P w1 w3.
Proof.
  intros (s1 & H1 & F1) (s2 & H2 & F2). exists (s1 ++ s2).
  split; [rewrite H2, H1, app_assoc; reflexivity | apply Forall_app; auto].
Qed.

Lemma sends_only_one (P : Request -> Prop) w t req :
  P req -> sends_only P w (mkWorld t (trace w ++ [req])).
Proof. intros Hreq. exists [req]. split; [reflexivity | repeat constructor; exact Hreq]. Qed.

Lemma setHeaders_carries config method url payload :
  carries_headers config (setHeaders (mkRequest method url payload [] None) config).
Proof. split; reflexivity. Qed.

Lemma lookup_request_carries config :
  carries_headers config (workspace_lookup_request config).
Proof. split; reflexivity. Qed.

Lemma bind_sends_only {A B} P (m : M A) (k : A -> M B) w :
  sends_only P w (snd (m w)) ->
  (forall a w', sends_only P w' (snd (k a w'))) ->
  sends_only P w (snd (bind m k w)).
Proof.
  intros Hm Hk. unfold bind.
  destruct (m w) as [[a | e | p |] w']; cbn [snd] in *; auto.
  eapply sends_only_trans; [exact Hm | apply Hk].
Qed.

Section Requests.

Variables (net : Net) (config : Config).

Let P := carries_headers config.

Lemma doGet_carries {A} `{Unmarshaler A} url (v : A) w :
  sends_only P w (snd (doGet net config url v w)).
Proof.
  destruct (parses net url) as [e |] eqn:Hparse.
  - unfold doGet, http_NewRequest. rewrite Hparse. apply sends_only_refl.
  - destruct (doGet_sends net config url v w Hparse) as (o & Hrun & _).
    rewrite Hrun. apply sends_only_one, setHeaders_carries.
Qed.

Lemma loop_carries fuel jobID :
  forall start desc held w,
    sends_only P w (snd (waitForJob_loop net fuel jobID config start desc held w)).
Proof.
  induction fuel as [| fuel IH]; intros start desc held w; [apply sends_only_refl |].
  cbn [waitForJob_loop].
  destruct (negb (String.eqb desc JobSuccess) && negb (String.eqb desc JobFailed));
    [| apply sends_only_refl].
  apply bind_sends_only; [apply doGet_carries |]. intros js w1.
  unfold bind, time_Sleep, time_Since. cbn [now trace].
  destruct (_ >? _).
  - exists []. split; [symmetry; apply app_nil_r | constructor].
  - eapply sends_only_trans; [| apply IH].
    exists []. split; [symmetry; apply app_nil_r | constructor].
Qed.

Lemma handleAsyncRequest_carries req httpVerb w :
  P req -> sends_only P w (snd (handleAsyncRequest net req config httpVerb w)).
Proof.
  intros Hreq. unfold handleAsyncRequest. unfold bind at 1, try, client_Do.
  set (w1 := mkWorld (now w + Z.of_N (latency (respond net (trace w) req)))
                     (trace w ++ [req])).
  assert (sends_only P w w1) as Hw1 by (apply sends_only_one, Hreq).
  destruct (outcome (respond net (trace w) req)) as [msg | res];
    [unfold ReadAll_request; destruct (Payload req); exact Hw1 |].
  destruct (readResponse res) as [err | body];
    [unfold ReadAll_request; destruct (Payload req); exact Hw1 |].
  destruct (asJobStatus body) as [msg | | js0]; try exact Hw1.
  cbn [deref]. rewrite (bind_Ok _ _ w1 js0 w1) by reflexivity.
  fold after_polling. rewrite bind_snd_pure by apply after_polling_world.
  eapply sends_only_trans; [exact Hw1 |].
  unfold waitForJob, bind, time_Now. apply loop_carries.
Qed.

Lemma fetch_managed_carries {A} `{Unmarshaler A} req (v : A) httpVerb w :
  P req ->
  sends_only P w
    (snd (handleAsyncRequestAndFetchManagdObject net req config v httpVerb w)).
Proof.
  intros Hreq. unfold handleAsyncRequestAndFetchManagdObject.
  apply bind_sends_only; [apply handleAsyncRequest_carries, Hreq |].
  intros js w1. destruct (JobStatus.Links js) as [links |];
    [| apply sends_only_refl].
  rewrite (bind_Ok _ _ w1 links w1) by reflexivity. cbv zeta.
  apply bind_sends_only; [apply doGet_carries |].
  intros a w2. apply sends_only_refl.
Qed.

Lemma findWorkspaceURLOrDefault_carries workspaceURL w :
  sends_only P w (snd (findWorkspaceURLOrDefault net config workspaceURL w)).
Proof.
  destruct (findWorkspaceURLOrDefault_shape net config workspaceURL w)
    as (o & w' & Hrun & _ & [-> | [_ ->]]); rewrite Hrun; cbn [snd].
  - apply sends_only_refl.
  - apply sends_only_one. apply lookup_request_carries.
Qed.

End Requests.

(** X3.  Every request the client sends for a creation, a read or a
    deletion carries the six standard headers, [Host], [SOURCE: Terraform]
    and the basic-auth credentials of the configuration, whatever the service
    answers. *)
Theorem requests_carry_headers_and_credentials net config :
  (forall r w,
     sends_only (carries_headers config) w
       (snd (CreateIPAMReservation net config r w)))
  /\ (forall id w,
        sends_only (carries_headers config) w
          (snd (GetIPAMReservation net config id w)))
  /\ (forall id w,
        sends_only (carries_headers config) w
          (snd (DeleteIPAMReservation net config id w))).
Proof.
  split; [| split].
  - intros r w.
    pose proof (findWorkspaceURLOrDefault_carries net config
                  (IPAMReservation.WorkspaceURL r) w) as Hfind.
    destruct (findWorkspaceURLOrDefault_shape net config
                (IPAMReservation.WorkspaceURL r) w)
      as (o & w1 & Hrun & [[url ->] | [e ->]] & _); rewrite Hrun in Hfind;
      cbn [snd] in Hfind.
    + rewrite (Create_resolved _ _ _ _ _ _ Hrun). cbv zeta.
      destruct (String.eqb (IPAMReservation.Policy_ r) ""); [| exact Hfind].
      destruct (negb (IPAMReservation.PolicyID r =? 0)); [| exact Hfind].
      unfold with_record.
      match goal with
      | |- context [let '(o, w') := ?m w1 in _] =>
          assert (sends_only (carries_headers config) w1 (snd (m w1))) as Hrest;
          [| destruct (m w1) as [o' w']; cbn [snd] in *;
             eapply sends_only_trans; eassumption]
      end.
      unfold buildPostRequest, http_NewRequest.
      destruct (parses net (collectionURL config IPAMReservationResourceType));
        [apply sends_only_refl |].
      apply bind_sends_only;
        [apply fetch_managed_carries, setHeaders_carries |].
      intros a w2. apply sends_only_refl.
    + rewrite (Create_unresolved _ _ _ _ _ _ Hrun). exact Hfind.
  - intros id w. apply doGet_carries.
  - intros id w. unfold DeleteIPAMReservation, http_NewRequest.
    destruct (parses net (itemURL config IPAMReservationResourceType id));
      [apply sends_only_refl |].
    apply bind_sends_only;
      [apply handleAsyncRequest_carries, setHeaders_carries |].
    intros a w2. apply sends_only_refl.
Qed.

(** X4.  An answer with an HTTP status of 400 or more ends a GET with an
    error that holds the response body word for word; nothing is decoded
    and the one request is not repeated. *)
Theorem doGet_surfaces_http_error {A} `{Unmarshaler A}
    net config url (v : A) w res body :
  parses net url = None ->
  outcome (respond net (trace w) (get_request config url)) = Responded res ->
  400 <= StatusCode res ->
  ResBody res = ReadOK body ->
  doGet net config url v w
  = (Err ("athena.apiClient: Request failed GET " +:+ url +:+ ": " +:+ text body),
     mkWorld (now w + Z.of_N (latency (respond net (trace w)
                                         (get_request config url))))
             (trace w ++ [get_request config url])).
Proof.
  intros Hparse Hout Hcode Hbody.
  unfold doGet, http_NewRequest. rewrite Hparse.
  unfold bind, try, client_Do. fold (get_request config url). rewrite Hout.
  unfold checkForErrors. rewrite Hbody.
  destruct (StatusCode res >=? 500).
  - reflexivity.
  - replace (StatusCode res >=? 400) with true
      by (symmetry; rewrite Z.geb_leb; apply Z.leb_le; exact Hcode).
    reflexivity.
Qed.

Lemma doGet_surfaces_http_error_witness :
  GetIPAMReservation (scripted [refused 404 "{detail: Not found.}"]) sample_config 9
    fresh_world
  = (Err ("athena.apiClient: Request failed GET "
            +:+ itemURL sample_config IPAMReservationResourceType 9
            +:+ ": {detail: Not found.}"),
     mkWorld 1000000
       [get_request sample_config (itemURL sample_config IPAMReservationResourceType 9)]).
Proof.
  apply (doGet_surfaces_http_error (scripted [refused 404 "{detail: Not found.}"])
           sample_config _ IPAMReservation.zero fresh_world
           (mkResponse 404
              (ReadOK (mkBody "{detail: Not found.}" (BadJSON "invalid character")
                         (BadJSON "invalid character")
                         (WorkspacesListResponse.mk []))))
           (mkBody "{detail: Not found.}" (BadJSON "invalid character")
              (BadJSON "invalid character") (WorkspacesListResponse.mk [])));
    [reflexivity | reflexivity | cbn; lia | reflexivity].
Defined.

(** X5.  Reading a reservation is one GET of its item URL and nothing
    else: the request is sent once, no job is polled, and the result is the
    decoded entity or the error of that GET. *)
Theorem read_is_one_get net config id w :
  parses net (itemURL config IPAMReservationResourceType id) = None ->
  let request := get_request config (itemURL config IPAMReservationResourceType id) in
  exists o,
    GetIPAMReservation net config id w
    = (o, mkWorld (now w + Z.of_N (latency (respond net (trace w) request)))
                  (trace w ++ [request]))
    /\ Method request = "GET"
    /\ match got IPAMReservation.zero (respond net (trace w) request) with
       | Some entity => o = Ok entity
       | None => exists e, o = Err e
       end.
Proof.
  intros Hparse request.
  destruct (doGet_sends net config _ IPAMReservation.zero w Hparse)
    as (o & Hrun & _ & Hout).
  exists o. split; [exact Hrun |]. split; [reflexivity | exact Hout].
Qed.

Lemma read_is_one_get_witness :
  exists o,
    GetIPAMReservation (scripted [answered 40 (body_of_reservation sample_created)])
      sample_config 9 fresh_world
    = (o, mkWorld (40 * Millisecond)
            [get_request sample_config
               (itemURL sample_config IPAMReservationResourceType 9)])
    /\ o = Ok sample_created.
Proof.
  destruct (read_is_one_get
              (scripted [answered 40 (body_of_reservation sample_created)])
              sample_config 9 fresh_world eq_refl) as (o & Hrun & _ & Hout).
  exists o. split; [exact Hrun | exact Hout].
Defined.

(** ** More on the poll loop *)

Section Bound.

Variables (net : Net) (config : Config) (jobID : Z).

Let budget := PollingTimeoutMS * Millisecond.
Let pause := PollingIntervalMS * Millisecond.
Let poll := poll_request config jobID.

(** From an elapsed time within the budget the loop sends only polls, and
    one pause fits into the rest of the budget for each poll but the last. *)
Lemma loop_sends_bounded fuel :
  forall start desc held w,
    now w - start <= budget ->
    exists k,
      trace (snd (waitForJob_loop net fuel jobID config start desc held w))
      = trace w ++ repeat poll k
      /\ Z.of_nat k * pause <= budget - (now w - start) + pause.
Proof.
  assert (0 < pause) as Hpause by (unfold pause, PollingIntervalMS, Millisecond; lia).
  induction fuel as [| fuel IH]; intros start desc held w Hin.
  - exists O. cbn. rewrite app_nil_r. split; [reflexivity | lia].
  - cbn [waitForJob_loop].
    destruct (negb (String.eqb desc JobSuccess) && negb (String.eqb desc JobFailed)).
    2:{ exists O. cbn. rewrite app_nil_r. split; [reflexivity | lia]. }
    destruct (parses net (itemURL config JobStatusResourceType jobID))
      as [e |] eqn:Hparse.
    { exists O. unfold bind at 1, GetJobStatus, doGet, http_NewRequest.
      rewrite Hparse. cbn. rewrite app_nil_r. split; [reflexivity | lia]. }
    destruct (GetJobStatus_sends net config jobID w Hparse) as (o & Hrun & _ & _).
    fold poll in Hrun. unfold bind at 1. rewrite Hrun.
    destruct o as [js | e | p |];
      try (exists 1%nat; cbn [snd trace repeat]; split; [reflexivity | lia]).
    unfold bind, time_Sleep, time_Since. cbn [now trace].
    fold pause budget. rewrite Z.max_r by lia.
    destruct (_ >? budget) eqn:Hover.
    + exists 1%nat. cbn [snd trace repeat]. split; [reflexivity | lia].
    + rewrite Z.gtb_ltb in Hover. apply Z.ltb_ge in Hover.
      match goal with
      | |- context [waitForJob_loop net fuel jobID config start ?d ?h ?w'] =>
          destruct (IH start d h w') as (k & Htrace & Hk); [exact Hover |];
          exists (S k); rewrite Htrace
      end.
      cbn [now trace repeat] in *. rewrite <- app_assoc.
      split; [reflexivity |]. rewrite Nat2Z.inj_succ. lia.
Qed.

End Bound.

(** X6.  Whatever the service answers, [waitForJob] comes back, and it has
    sent at most 721 requests by then, each of them the status fetch of the
    job: 3,600,000 ms of budget leave room for 720 pauses of 5000 ms. *)
Theorem waitForJob_sends_at_most_721_fetches net config jobID w :
  fst (waitForJob net jobID config w) <> OutOfFuel
  /\ exists k,
       trace (snd (waitForJob net jobID config w))
       = trace w ++ repeat (poll_request config jobID) k
       /\ (k <= 721)%nat.
Proof.
  split; [apply waitForJob_returns |].
  unfold waitForJob, bind, time_Now.
  destruct (loop_sends_bounded net config jobID waitForJob_fuel (now w) "" None w)
    as (k & Htrace & Hk).
  - unfold PollingTimeoutMS, Millisecond. lia.
  - exists k. split; [exact Htrace |].
    unfold PollingTimeoutMS, PollingIntervalMS, Millisecond in Hk. lia.
Qed.

(** X7.  When [n] polls find the job unfinished within the budget and the
    pause after the next poll ends past the budget, [waitForJob] returns the
    timeout error after exactly these [n + 1] fetches and sends nothing
    more; what the last fetch found plays no part. *)
Theorem waitForJob_times_out_after_budget net config jobID n w :
  parses net (itemURL config JobStatusResourceType jobID) = None ->
  (forall k, (k <= n)%nat ->
     exists js, fetched (poll_reply net config jobID (trace w) k) = Some js
                /\ ((k < n)%nat -> is_terminal (JobStatus.JobState js) = false)) ->
  clock_after net config jobID (trace w) (now w) n - now w
    <= PollingTimeoutMS * Millisecond ->
  clock_after net config jobID (trace w) (now w) (S n) - now w
    > PollingTimeoutMS * Millisecond ->
  waitForJob net jobID config w
  = (Err "Timed out while waiting for job to complete.",
     mkWorld (clock_after net config jobID (trace w) (now w) (S n))
             (trace w ++ repeat (poll_request config jobID) (S n))).
Proof.
  intros Hparse Hpolls Hin Hout.
  unfold waitForJob, bind, time_Now.
  apply (loop_times_out net config jobID Hparse); auto.
  pose proof (clock_after_grows net config jobID n (trace w) (now w)) as Hgrow.
  cbv zeta in Hgrow. unfold waitForJob_fuel.
  unfold PollingTimeoutMS, PollingIntervalMS, Millisecond in *. lia.
Qed.

Lemma waitForJob_times_out_after_budget_witness :
  waitForJob slow_answer_service 7 sample_config fresh_world
  = (Err "Timed out while waiting for job to complete.",
     mkWorld (3605000 * Millisecond) [poll_request sample_config 7]).
Proof.
  apply (waitForJob_times_out_after_budget slow_answer_service sample_config 7 0
           fresh_world eq_refl).
  - intros k Hk. exists (sample_job "Pending" None).
    replace k with 0%nat by lia. split; [reflexivity | lia].
  - apply Z.leb_le. vm_compute. reflexivity.
  - vm_compute. reflexivity.
Defined.

Section Abort.

Variables (net : Net) (config : Config) (jobID : Z).

Hypothesis url_parses :
  parses net (itemURL config JobStatusResourceType jobID) = None.

(** [n] polls that find the job unfinished within the budget, then a fetch
    that fails: the loop returns the error of that fetch at once. *)
Lemma loop_aborts n :
  forall fuel start desc held w,
    is_terminal desc = false ->
    (n + 1 <= fuel)%nat ->
    (forall k, (k < n)%nat ->
       exists js, fetched (poll_reply net config jobID (trace w) k) = Some js
                  /\ is_terminal (JobStatus.JobState js) = false) ->
    fetched (poll_reply net config jobID (trace w) n) = None ->
    clock_after net config jobID (trace w) (now w) n - start
      <= PollingTimeoutMS * Millisecond ->
    exists e,
      waitForJob_loop net fuel jobID config start desc held w
      = (Err e,
         mkWorld (clock_after net config jobID (trace w) (now w) n
                  + Z.of_N (latency (poll_reply net config jobID (trace w) n)))
                 (trace w ++ repeat (poll_request config jobID) (S n))).
Proof.
  induction n as [| n IH]; intros fuel start desc held w Hdesc Hfuel Hpolls Hlast Hin.
  - destruct fuel as [| fuel]; [lia |].
    cbn [poll_reply] in Hlast.
    destruct (loop_fetch_error net config jobID url_parses fuel start desc held w
                Hdesc Hlast) as (e & Hrun).
    exists e. rewrite Hrun. reflexivity.
  - destruct fuel as [| fuel]; [lia |].
    destruct (Hpolls O ltac:(lia)) as (js & Hfetch & Hjs).
    cbn [poll_reply] in Hfetch.
    rewrite (loop_step net config jobID url_parses _ _ _ _ _ js Hdesc Hfetch).
    rewrite clock_after_S in Hin.
    pose proof (clock_after_grows net config jobID n
                  (trace w ++ [poll_request config jobID])
                  (now w + Z.of_N (latency (respond net (trace w)
                                              (poll_request config jobID)))
                   + PollingIntervalMS * Millisecond)) as Hgrow.
    cbv zeta in Hgrow.
    assert (0 <= Z.of_nat n * (PollingIntervalMS * Millisecond)) as Hpos
      by (unfold PollingIntervalMS, Millisecond; lia).
    unfold after_poll at 1. cbn [now].
    destruct (_ >? _) eqn:Hover; [apply Z.gtb_lt in Hover; lia |].
    destruct (IH fuel start (JobStatus.JobState js) (Some js)
                (after_poll net config jobID w) Hjs) as (e & Hrun);
      unfold after_poll; cbn [now trace]; try assumption; try lia.
    + intros k Hk. apply (Hpolls (S k)). lia.
    + exists e. unfold after_poll in Hrun. cbn [now trace] in Hrun.
      rewrite Hrun. rewrite (clock_after_S _ _ _ (trace w)).
      cbn [poll_reply repeat]. rewrite <- app_assoc. reflexivity.
Qed.

End Abort.

(** X8.  A status fetch that fails is not retried: after [n] polls that
    found the job unfinished, the first failing fetch ends [waitForJob] with
    an error; the failing fetch is the last request, and no pause follows
    it. *)
Theorem waitForJob_stops_at_failed_fetch net config jobID n w :
  parses net (itemURL config JobStatusResourceType jobID) = None ->
  (forall k, (k < n)%nat ->
     exists js, fetched (poll_reply net config jobID (trace w) k) = Some js
                /\ is_terminal (JobStatus.JobState js) = false) ->
  fetched (poll_reply net config jobID (trace w) n) = None ->
  clock_after net config jobID (trace w) (now w) n - now w
    <= PollingTimeoutMS * Millisecond ->
  exists e,
    waitForJob net jobID config w
    = (Err e,
       mkWorld (clock_after net config jobID (trace w) (now w) n
                + Z.of_N (latency (poll_reply net config jobID (trace w) n)))
               (trace w ++ repeat (poll_request config jobID) (S n))).
Proof.
  intros Hparse Hpolls Hlast Hin.
  unfold waitForJob, bind, time_Now.
  apply (loop_aborts net config jobID Hparse); auto.
  pose proof (clock_after_grows net config jobID n (trace w) (now w)) as Hgrow.
  cbv zeta in Hgrow. unfold waitForJob_fuel.
  unfold PollingTimeoutMS, PollingIntervalMS, Millisecond in *. lia.
Qed.

Lemma waitForJob_stops_at_failed_fetch_witness :
  exists e,
    waitForJob broken_poll_service 7 sample_config fresh_world
    = (Err e,
       mkWorld (5081 * Millisecond)
         [poll_request sample_config 7; poll_request sample_config 7]).
Proof.
  apply (waitForJob_stops_at_failed_fetch broken_poll_service sample_config 7 1
           fresh_world eq_refl).
  - intros k Hk. exists (sample_job "Pending" None).
    replace k with 0%nat by lia. split; reflexivity.
  - reflexivity.
  - apply Z.leb_le. vm_compute. reflexivity.
Defined.

(** ** More on the engine *)

Section Engine_outcomes.

Variables (net : Net) (config : Config).

(** The engine run up to the end of the polling, when [n] polls find the
    job unfinished and the next one finds it in a terminal state. *)
Lemma handleAsyncRequest_polled req httpVerb w js0 n final :
  let jobID := JobStatus.ID js0 in
  let submitted := trace w ++ [req] in
  let t := now w + Z.of_N (latency (respond net (trace w) req)) in
  accepted (respond net (trace w) req) = Some js0 ->
  parses net (itemURL config JobStatusResourceType jobID) = None ->
  (forall k, (k < n)%nat ->
     exists p, fetched (poll_reply net config jobID submitted k) = Some p
               /\ is_terminal (JobStatus.JobState p) = false) ->
  fetched (poll_reply net config jobID submitted n) = Some final ->
  is_terminal (JobStatus.JobState final) = true ->
  clock_after net config jobID submitted t (S n) - t
    <= PollingTimeoutMS * Millisecond ->
  handleAsyncRequest net req config httpVerb w
  = after_polling (Some final)
      (mkWorld (clock_after net config jobID submitted t (S n))
               (submitted ++ repeat (poll_request config jobID) (S n))).
Proof.
  intros jobID submitted t Hacc Hparse Hbefore Hlast Hterm Hclock.
  rewrite (handleAsyncRequest_accepted _ _ _ _ _ _ Hacc).
  fold jobID submitted t.
  rewrite (bind_Ok _ _ _ _ _
             (waitForJob_polls net config jobID n (mkWorld t submitted) final
                Hparse Hbefore Hlast Hterm Hclock)).
  reflexivity.
Qed.

Lemma after_polling_Failed js details errs w :
  JobStatus.JobState js = JobFailed ->
  JobStatus.ErrorDetails js = Some details ->
  JobStatus.Errors details = Some errs ->
  after_polling (Some js) w = (Err (job_failure_text js errs), w).
Proof.
  intros Hstate Hdetails Herrs. unfold after_polling.
  rewrite (bind_Ok _ _ w js w) by reflexivity.
  assert (checkForJobErrors js w = (Ok (Some (job_failure_text js errs)), w)) as Hcheck.
  { unfold checkForJobErrors. rewrite Hstate, Hdetails.
    change (negb (String.eqb JobFailed JobSuccess)) with true. cbv iota.
    rewrite (bind_Ok _ _ w details w) by reflexivity.
    rewrite Herrs. reflexivity. }
  rewrite (bind_Ok _ _ _ _ _ Hcheck). reflexivity.
Qed.

End Engine_outcomes.



(** X10.  A deletion sends the DELETE of the item URL, polls the job, and
    is done when the job is successful: it returns no error and fetches no
    managed object, so the job status needs no links block. *)
Theorem delete_confirms_without_resolving net config id w js0 n final :
  let request := delete_request config id in
  let jobID := JobStatus.ID js0 in
  let submitted := trace w ++ [request] in
  let t := now w + Z.of_N (latency (respond net (trace w) request)) in
  parses net (itemURL config IPAMReservationResourceType id) = None ->
  accepted (respond net (trace w) request) = Some js0 ->
  parses net (itemURL config JobStatusResourceType jobID) = None ->
  (forall k, (k < n)%nat ->
     exists p, fetched (poll_reply net config jobID submitted k) = Some p
               /\ is_terminal (JobStatus.JobState p) = false) ->
  fetched (poll_reply net config jobID submitted n) = Some final ->
  JobStatus.JobState final = "Successful" ->
  clock_after net config jobID submitted t (S n) - t
    <= PollingTimeoutMS * Millisecond ->
  DeleteIPAMReservation net config id w
  = (Ok tt,
     mkWorld (clock_after net config jobID submitted t (S n))
             (trace w ++ request :: repeat (poll_request config jobID) (S n)))
  /\ Method request = "DELETE"
  /\ Payload request = None.
Proof.
  intros request jobID submitted t Hparse Hacc Hparse' Hbefore Hlast Hstate Hclock.
  split; [| split; reflexivity].
  unfold DeleteIPAMReservation, http_NewRequest. rewrite Hparse.
  fold (delete_request config id). fold request.
  erewrite bind_Ok.
  2:{ rewrite (handleAsyncRequest_polled net config request "DELETE" w js0 n final
                 Hacc Hparse' Hbefore Hlast
                 ltac:(rewrite Hstate; reflexivity) Hclock).
      apply after_polling_Successful. exact Hstate. }
  unfold ret. f_equal. f_equal. unfold submitted. rewrite <- app_assoc. reflexivity.
Qed.

Lemma delete_confirms_without_resolving_witness :
  DeleteIPAMReservation deletion_service sample_config 9 fresh_world
  = (Ok tt,
     mkWorld (10280 * Millisecond)
       [ delete_request sample_config 9;
         poll_request sample_config 7;
         poll_request sample_config 7 ]).
Proof.
  apply (delete_confirms_without_resolving deletion_service sample_config 9
           fresh_world (deletion_job "Pending") 1 (deletion_job "Successful")
           eq_refl eq_refl eq_refl).
  - intros k Hk. exists (deletion_job "Pending").
    replace k with 0%nat by lia. split; reflexivity.
  - reflexivity.
  - reflexivity.
  - apply Z.leb_le. vm_compute. reflexivity.
Defined.

(** X11.  A deletion whose DELETE is not answered, or is answered with a
    status of 400 or more (a reservation that is already gone, say), does
    not return an error: the request was built without body, and reading its
    nil body for the error message panics. *)
Theorem delete_panics_when_refused net config id w :
  let request := delete_request config id in
  parses net (itemURL config IPAMReservationResourceType id) = None ->
  ((exists msg, outcome (respond net (trace w) request) = TransportError msg)
   \/ (exists res, outcome (respond net (trace w) request) = Responded res
                   /\ 400 <= StatusCode res)) ->
  DeleteIPAMReservation net config id w
  = (Panic NilDereference,
     mkWorld (now w + Z.of_N (latency (respond net (trace w) request)))
             (trace w ++ [request])).
Proof.
  intros request Hparse Hfail.
  unfold DeleteIPAMReservation, http_NewRequest. rewrite Hparse.
  fold (delete_request config id). fold request.
  apply bind_Panic.
  unfold handleAsyncRequest, bind at 1, try, client_Do.
  destruct Hfail as [[msg Hout] | (res & Hout & Hcode)]; rewrite Hout.
  - reflexivity.
  - assert ((StatusCode res >=? 400) = true) as H400
      by (rewrite Z.geb_leb; apply Z.leb_le; exact Hcode).
    destruct (checkForErrors_from_400 res H400) as [e He].
    unfold readResponse. rewrite He. reflexivity.
Qed.

Lemma delete_panics_when_refused_witness :
  DeleteIPAMReservation refusing_service sample_config 9 fresh_world
  = (Panic NilDereference, mkWorld 1000000 [delete_request sample_config 9]).
Proof.
  apply (delete_panics_when_refused refusing_service sample_config 9 fresh_world
           eq_refl).
  right. eexists. split; [reflexivity | cbn; lia].
Defined.

(** X12.  When the polling ends on a job in the state "Failed" that carries
    its list of errors, the engine returns the error
    [Job {type} ({id}) failed with message [{m1} {m2} ...]] and does not fetch
    the managed object: the last request is the last poll. *)
Theorem failed_job_is_reported_not_resolved {A} `{Unmarshaler A}
    net config req httpVerb (v : A) w js0 n final details errs :
  let jobID := JobStatus.ID js0 in
  let submitted := trace w ++ [req] in
  let t := now w + Z.of_N (latency (respond net (trace w) req)) in
  accepted (respond net (trace w) req) = Some js0 ->
  parses net (itemURL config JobStatusResourceType jobID) = None ->
  (forall k, (k < n)%nat ->
     exists p, fetched (poll_reply net config jobID submitted k) = Some p
               /\ is_terminal (JobStatus.JobState p) = false) ->
  fetched (poll_reply net config jobID submitted n) = Some final ->
  JobStatus.JobState final = "Failed" ->
  JobStatus.ErrorDetails final = Some details ->
  JobStatus.Errors details = Some errs ->
  clock_after net config jobID submitted t (S n) - t
    <= PollingTimeoutMS * Millisecond ->
  handleAsyncRequestAndFetchManagdObject net req config v httpVerb w
  = (Err ("Job " +:+ JobStatus.JobType final +:+ " ("
            +:+ strconv.Itoa (JobStatus.ID final) +:+ ") failed with message "
            +:+ "[" +:+ strings.Join
                          (map (fun m => "{" +:+ JobStatus.Message m +:+ "}") errs)
                          " "
            +:+ "]"),
     mkWorld (clock_after net config jobID submitted t (S n))
             (submitted ++ repeat (poll_request config jobID) (S n))).
Proof.
  intros jobID submitted t Hacc Hparse Hbefore Hlast Hstate Hdetails Herrs Hclock.
  unfold handleAsyncRequestAndFetchManagdObject.
  apply bind_Err.
  rewrite (handleAsyncRequest_polled net config req httpVerb w js0 n final
             Hacc Hparse Hbefore Hlast ltac:(rewrite Hstate; reflexivity) Hclock).
  apply (after_polling_Failed final details errs _ Hstate Hdetails Herrs).
Qed.

Lemma failed_job_is_reported_not_resolved_witness :
  handleAsyncRequestAndFetchManagdObject
    (failing_job_service (Some bad_hostname_details))
    (post_request sample_config (ReservationEntity sample_request))
    sample_config IPAMReservation.zero "POST" fresh_world
  = (Err "Job Provision IPAM (7) failed with message [{bad hostname}]",
     mkWorld (5200 * Millisecond)
       [ post_request sample_config (ReservationEntity sample_request);
         poll_request sample_config 7 ]).
Proof.
  apply (failed_job_is_reported_not_resolved
           (failing_job_service (Some bad_hostname_details)) sample_config
           (post_request sample_config (ReservationEntity sample_request))
           "POST" IPAMReservation.zero fresh_world
           (sample_job "Pending" None) 0
           (sample_job "Failed" (Some bad_hostname_details))
           bad_hostname_details [JobStatus.mkMessage "bad hostname"]
           eq_refl eq_refl).
  - intros k Hk. lia.
  - reflexivity.
  - reflexivity.
  - reflexivity.
  - reflexivity.
  - apply Z.leb_le. vm_compute. reflexivity.
Defined.

(** X13.  A successful job whose status has no links block cannot be
    resolved: the engine panics on the nil links after the last poll, and
    sends no further request. *)
Theorem successful_job_without_links_panics {A} `{Unmarshaler A}
    net config req httpVerb (v : A) w js0 n final :
  let jobID := JobStatus.ID js0 in
  let submitted := trace w ++ [req] in
  let t := now w + Z.of_N (latency (respond net (trace w) req)) in
  accepted (respond net (trace w) req) = Some js0 ->
  parses net (itemURL config JobStatusResourceType jobID) = None ->
  (forall k, (k < n)%nat ->
     exists p, fetched (poll_reply net config jobID submitted k) = Some p
               /\ is_terminal (JobStatus.JobState p) = false) ->
  fetched (poll_reply net config jobID submitted n) = Some final ->
  JobStatus.JobState final = "Successful" ->
  JobStatus.Links final = None ->
  clock_after net config jobID submitted t (S n) - t
    <= PollingTimeoutMS * Millisecond ->
  handleAsyncRequestAndFetchManagdObject net req config v httpVerb w
  = (Panic NilDereference,
     mkWorld (clock_after net config jobID submitted t (S n))
             (submitted ++ repeat (poll_request config jobID) (S n))).
Proof.
  intros jobID submitted t Hacc Hparse Hbefore Hlast Hstate Hlinks Hclock.
  unfold handleAsyncRequestAndFetchManagdObject.
  erewrite bind_Ok.
  2:{ rewrite (handleAsyncRequest_polled net config req httpVerb w js0 n final
                 Hacc Hparse Hbefore Hlast
                 ltac:(rewrite Hstate; reflexivity) Hclock).
      apply after_polling_Successful. exact Hstate. }
  rewrite Hlinks. reflexivity.
Qed.

Lemma successful_job_without_links_panics_witness :
  handleAsyncRequestAndFetchManagdObject linkless_success_service
    (post_request sample_config (ReservationEntity sample_request))
    sample_config IPAMReservation.zero "POST" fresh_world
  = (Panic NilDereference,
     mkWorld (5200 * Millisecond)
       [ post_request sample_config (ReservationEntity sample_request);
         poll_request sample_config 7 ]).
Proof.
  apply (successful_job_without_links_panics linkless_success_service sample_config
           (post_request sample_config (ReservationEntity sample_request))
           "POST" IPAMReservation.zero fresh_world
           (deletion_job "Pending") 0 (deletion_job "Successful")
           eq_refl eq_refl).
  - intros k Hk. lia.
  - reflexivity.
  - reflexivity.
  - reflexivity.
  - apply Z.leb_le. vm_compute. reflexivity.
Defined.

(** ** More on creating a reservation *)

(** X14.  Only a record with a policy id and without policy URL is
    submitted.  A record whose policy id is 0, or whose policy URL is set
    (also when that URL is its only policy reference), ends in an error; no
    mutating request is sent, and once the workspace is resolved the error is
    the one that asks for "a PolicyID or Policy URL". *)
Theorem create_submits_only_id_without_url net config r w :
  IPAMReservation.Policy_ r <> "" \/ IPAMReservation.PolicyID r = 0 ->
  exists e r' w',
    CreateIPAMReservation net config r w = (Err e, r', w')
    /\ (forall url w1,
          findWorkspaceURLOrDefault net config (IPAMReservation.WorkspaceURL r) w
          = (Ok url, w1) ->
          e = "athena.apiClient: IPAM Record Create requires a PolicyID or Policy URL"
          /\ w' = w1)
    /\ (forall req, In req (trace w') -> In req (trace w) \/ is_mutating req = false).
Proof.
  intros Hpolicy.
  destruct (findWorkspaceURLOrDefault_shape net config
              (IPAMReservation.WorkspaceURL r) w)
    as (o & w1 & Hfind & [[url ->] | [e ->]] & Hworld).
  - rewrite (Create_resolved _ _ _ _ _ _ Hfind). cbv zeta.
    assert ((if String.eqb (IPAMReservation.Policy_ r) ""
             then if negb (IPAMReservation.PolicyID r =? 0) then true else false
             else false) = false) as Hguard.
    { destruct Hpolicy as [Hurl | Hid].
      - apply String.eqb_neq in Hurl. rewrite Hurl. reflexivity.
      - rewrite Hid. destruct (String.eqb _ _); reflexivity. }
    exists policy_required_error, (IPAMReservation.set_WorkspaceURL url r), w1.
    split.
    + destruct (String.eqb (IPAMReservation.Policy_ r) ""); [| reflexivity].
      destruct (negb (IPAMReservation.PolicyID r =? 0)); [discriminate | reflexivity].
    + split.
      * intros url' w2 Hfind'. rewrite Hfind in Hfind'. injection Hfind' as _ <-.
        split; reflexivity.
      * intros req Hin. destruct Hworld as [-> | [_ ->]]; [left; exact Hin |].
        cbn [trace] in Hin. apply in_app_or in Hin as [Hin | [<- | []]];
          [left; exact Hin | right; apply lookup_is_not_mutating].
  - rewrite (Create_unresolved _ _ _ _ _ _ Hfind).
    exists e, (IPAMReservation.set_WorkspaceURL "" r), w1.
    split; [reflexivity |]. split.
    + intros url w2 Hfind'. rewrite Hfind in Hfind'. discriminate.
    + intros req Hin. destruct Hworld as [-> | [_ ->]]; [left; exact Hin |].
      cbn [trace] in Hin. apply in_app_or in Hin as [Hin | [<- | []]];
        [left; exact Hin | right; apply lookup_is_not_mutating].
Qed.

Lemma create_submits_only_id_without_url_witness :
  exists r',
    CreateIPAMReservation three_poll_service sample_config request_with_policy_url
      fresh_world
    = (Err "athena.apiClient: IPAM Record Create requires a PolicyID or Policy URL",
       r', fresh_world).
Proof.
  assert (IPAMReservation.Policy_ request_with_policy_url <> "") as Hurl
    by (vm_compute; discriminate).
  assert (findWorkspaceURLOrDefault three_poll_service sample_config
            (IPAMReservation.WorkspaceURL request_with_policy_url) fresh_world
          = (Ok "https://onefuse.example:443/api/v3/onefuse/workspaces/1/",
             fresh_world)) as Hfind
    by (vm_compute; reflexivity).
  destruct (create_submits_only_id_without_url three_poll_service sample_config
              request_with_policy_url fresh_world (or_introl Hurl))
    as (e & r' & w' & Hrun & Herr & _).
  destruct (Herr _ _ Hfind) as [He Hw]. subst e w'.
  exists r'. exact Hrun.
Defined.

(** X15.  Without a workspace URL the creation first sends the lookup
    [GET .../workspaces/?filter=name.exact:Default] and takes the first
    workspace of the answer, whatever it is named and however many are
    listed: the record's workspace URL becomes the item URL of that
    workspace. *)
Theorem default_workspace_is_first_listed net config r w first rest :
  IPAMReservation.WorkspaceURL r = "" ->
  parses net (URL (workspace_lookup_request config)) = None ->
  listed (respond net (trace w) (workspace_lookup_request config))
  = Some (first :: rest) ->
  strconv.in_int_range (Workspace.ID first) ->
  exists o r' w',
    CreateIPAMReservation net config r w = (o, r', w')
    /\ IPAMReservation.WorkspaceURL r'
       = itemURL config WorkspaceResourceType (Workspace.ID first)
    /\ (exists sent,
          trace w' = trace w ++ workspace_lookup_request config :: sent)
    /\ URL (workspace_lookup_request config)
       = collectionURL config WorkspaceResourceType +:+ "?filter=name.exact:Default".
Proof.
  intros Hempty Hparse Hlisted Hrange.
  destruct (default_workspace_resolved net config w first rest Hparse Hlisted Hrange)
    as [Hfind _].
  rewrite <- Hempty in Hfind.
  rewrite (Create_resolved _ _ _ _ _ _ Hfind). cbv zeta.
  destruct (String.eqb (IPAMReservation.Policy_ r) "");
    [| do 3 eexists; split; [reflexivity |]; split; [reflexivity |];
       split; [exists []; reflexivity | reflexivity]].
  destruct (negb (IPAMReservation.PolicyID r =? 0));
    [| do 3 eexists; split; [reflexivity |]; split; [reflexivity |];
       split; [exists []; reflexivity | reflexivity]].
  unfold with_record.
  match goal with
  | |- context [let '(o, w') := ?m ?w1 in _] =>
      assert (sends_only (carries_headers config) w1 (snd (m w1))) as (sent & Hsent & _);
      [| destruct (m w1) as [o' w']; cbn [snd trace] in Hsent;
         do 3 eexists; split; [reflexivity |]; split; [reflexivity |];
         split; [exists sent; rewrite Hsent, <- app_assoc; reflexivity | reflexivity]]
  end.
  unfold buildPostRequest, http_NewRequest.
  destruct (parses net (collectionURL config IPAMReservationResourceType));
    [apply sends_only_refl |].
  apply bind_sends_only; [apply fetch_managed_carries, setHeaders_carries |].
  intros a w2. apply sends_only_refl.
Qed.

Lemma default_workspace_is_first_listed_witness :
  exists o r' w',
    CreateIPAMReservation two_workspace_service sample_config
      request_without_workspace fresh_world = (o, r', w')
    /\ IPAMReservation.WorkspaceURL r'
       = "https://onefuse.example:443/api/v3/onefuse/workspaces/5/".
Proof.
  destruct (default_workspace_is_first_listed two_workspace_service sample_config
              request_without_workspace fresh_world
              (Workspace.mk None 5 "Staging") [default_workspace]
              eq_refl eq_refl eq_refl)
    as (o & r' & w' & Hrun & Hurl & _).
  - unfold strconv.in_int_range, strconv.MinInt, strconv.MaxInt. cbn. lia.
  - exists o, r', w'. split; [exact Hrun | exact Hurl].
Defined.

(** X16.  When the lookup of the default workspace is answered with a
    status of 400 or more, the creation returns
    [athena.apiClient: Failed to find default workspace: {body}], leaves the
    record as it was and sends nothing after the lookup. *)
Theorem workspace_lookup_error_is_returned net config r w res body :
  IPAMReservation.WorkspaceURL r = "" ->
  parses net (URL (workspace_lookup_request config)) = None ->
  outcome (respond net (trace w) (workspace_lookup_request config)) = Responded res ->
  400 <= StatusCode res ->
  ResBody res = ReadOK body ->
  CreateIPAMReservation net config r w
  = (Err ("athena.apiClient: Failed to find default workspace" +:+ ": "
            +:+ text body),
     r,
     mkWorld (now w + Z.of_N (latency (respond net (trace w)
                                         (workspace_lookup_request config))))
             (trace w ++ [workspace_lookup_request config])).
Proof.
  intros Hempty Hparse Hout Hcode Hbody.
  assert ((StatusCode res >=? 400) = true) as H400
    by (rewrite Z.geb_leb; apply Z.leb_le; exact Hcode).
  assert (findWorkspaceURLOrDefault net config "" w
          = (Err ("athena.apiClient: Failed to find default workspace" +:+ ": "
                    +:+ text body),
             mkWorld (now w + Z.of_N (latency (respond net (trace w)
                                                 (workspace_lookup_request config))))
                     (trace w ++ [workspace_lookup_request config]))) as Hfind.
  { unfold findWorkspaceURLOrDefault. cbn [String.eqb].
    unfold bind at 1, try at 1, findDefaultWorkspaceID, http_NewRequest.
    cbn in Hparse. rewrite Hparse.
    unfold bind, try, client_Do.
    fold (get_request config
            (collectionURL config WorkspaceResourceType +:+ "?"
               +:+ "filter=name.exact:Default")).
    fold (workspace_lookup_request config). rewrite Hout.
    unfold readResponse, checkForErrors. rewrite Hbody, H400.
    destruct (StatusCode res >=? 500); reflexivity. }
  rewrite <- Hempty in Hfind at 1.
  rewrite (Create_unresolved _ _ _ _ _ _ Hfind).
  f_equal. f_equal.
  transitivity (IPAMReservation.set_WorkspaceURL (IPAMReservation.WorkspaceURL r) r);
    [rewrite Hempty; reflexivity | apply set_WorkspaceURL_same].
Qed.

Lemma workspace_lookup_error_is_returned_witness :
  CreateIPAMReservation refusing_service sample_config request_without_workspace
    fresh_world
  = (Err "athena.apiClient: Failed to find default workspace: {detail: Not found.}",
     request_without_workspace,
     mkWorld 1000000 [workspace_lookup_request sample_config]).
Proof.
  assert (400 <= 404) as Hcode by lia.
  rewrite (workspace_lookup_error_is_returned refusing_service sample_config
             request_without_workspace fresh_world
             (mkResponse 404
                (ReadOK (mkBody "{detail: Not found.}" (BadJSON "invalid character")
                           (BadJSON "invalid character")
                           (WorkspacesListResponse.mk []))))
             (mkBody "{detail: Not found.}" (BadJSON "invalid character")
                (BadJSON "invalid character") (WorkspacesListResponse.mk []))
             eq_refl eq_refl eq_refl Hcode eq_refl).
  reflexivity.
Defined.
